(** * Carbon emission monitor: calculator, activity monitor, history buffer

    A shallow embedding of [carbon_calculator.py], [bpf_monitor.py],
    [optimizer.py] and, of [app.py], the collection loop and the optimize
    route, with the properties of the specification proved (or refuted) on
    it, followed by further properties read off the code.

    Conventions of the embedding.
    - Python [float] and [int] arithmetic of the calculator is carried out
      in exact rationals ([Q], compared with [==]); rounding of IEEE
      doubles is outside the model.
    - Counters of the monitor are Python integers that start at 0 and only
      receive unsigned quantities; they live in [N].
    - A [dict] with computed keys is a [gmap]; a dict literal with a fixed
      set of keys is a record.
    - Readings of the operating system (clock, CPU and memory samples,
      network counters, process table, availability of the kernel probe)
      are explicit inputs.
    - Two behaviours of the libraries the code calls decide properties
      and are modelled as the libraries have them: the probe object of
      bcc is a container of its opened tables and is false in a test
      while it has none; [psutil.process_iter(attrs)] fills [proc.info]
      with [None] for an attribute it may not read and does not raise. *)

From Stdlib Require Import QArith Lqa.
From Stdlib Require Import Sorted.
From stdpp Require Import gmap strings list.
From stdpp Require Import pretty.

(** ** A state and exception monad

    Methods mutate [self] and the outside world and may raise; a raised
    exception keeps the mutations made before it. *)

Inductive exn : Set :=
  | TypeError
  | KeyError
  | BackendError
  | NoSuchProcess
  | AccessDenied
  | OtherError.

Inductive outcome (A : Type) : Type :=
  | Ok (a : A)
  | Raise (e : exn).
Arguments Ok {A} a.
Arguments Raise {A} e.

Definition M (S A : Type) : Type := S -> outcome A * S.

Definition ret {S A} (a : A) : M S A := fun s => (Ok a, s).

Definition bind {S A B} (m : M S A) (k : A -> M S B) : M S B :=
  fun s => match m s with
           | (Ok a, s') => k a s'
           | (Raise e, s') => (Raise e, s')
           end.

Definition raise {S A} (e : exn) : M S A := fun s => (Raise e, s).

(** [try: m  except <handled>: h] *)
Definition try_except {S A} (m : M S A) (handled : exn -> bool)
    (h : exn -> M S A) : M S A :=
  fun s => match m s with
           | (Ok a, s') => (Ok a, s')
           | (Raise e, s') => if handled e then h e s' else (Raise e, s')
           end.
Definition get {S} : M S S := fun s => (Ok s, s).
Definition modify {S} (f : S -> S) : M S unit := fun s => (Ok tt, f s).

Declare Scope monad_scope.
Delimit Scope monad_scope with monad.
Notation "x <- m ;; k" := (bind m (fun x => k))
  (at level 100, m at next level, right associativity) : monad_scope.
Notation "m ;;; k" := (bind m (fun _ => k))
  (at level 100, right associativity) : monad_scope.

(** ** [carbon_calculator.py] *)

Module Calculator.
Local Open Scope Q_scope.
Local Open Scope monad_scope.

(** Values a [network_stats] dict may hold under a key: a number, or
    anything else (the nested [process_stats] dict, [None], a string). *)
Inductive value : Type :=
  | VNum (q : Q)
  | VOther.

(** What [time.time], [psutil.cpu_percent] and [psutil.virtual_memory]
    read.  The [k]-th call of [psutil.cpu_percent] returns [cpu_feed k]. *)
Record OS : Type := {
  clock : Q;
  cpu_feed : nat -> Q;
  cpu_reads : nat;
  vm_percent : Q;
  vm_used : Q;
  vm_total : Q
}.

(** The mutable attributes of a [CarbonCalculator]. *)
Record CarbonCalculator : Type := {
  start_time : Q;
  total_carbon : Q
}.

Record St : Type := { os : OS; self : CarbonCalculator }.

(** The coefficients assigned in [__init__]; no method reassigns them. *)
Definition GRID_CARBON_INTENSITY : Q := 0.5.
Definition CPU_TDP : Q := 65.
Definition NETWORK_POWER_PER_GB : Q := 0.06.
Definition IDLE_POWER : Q := 50.

Definition time_time : M St Q := fun s => (Ok (clock (os s)), s).

(** [psutil.cpu_percent(interval=i)] blocks for [i] seconds and consumes
    one sample. *)
Definition psutil_cpu_percent (interval : Q) : M St Q := fun s =>
  let o := os s in
  (Ok (cpu_feed o (cpu_reads o)),
   {| os := {| clock := clock o + interval; cpu_feed := cpu_feed o;
               cpu_reads := S (cpu_reads o); vm_percent := vm_percent o;
               vm_used := vm_used o; vm_total := vm_total o |};
      self := self s |}).

Module Svmem.
Record t : Type := { percent : Q; used : Q; total : Q }.
End Svmem.

Definition psutil_virtual_memory : M St Svmem.t := fun s =>
  (Ok {| Svmem.percent := vm_percent (os s); Svmem.used := vm_used (os s);
         Svmem.total := vm_total (os s) |}, s).

Definition set_total_carbon (c : Q) : M St unit :=
  modify (fun s => {| os := os s;
                      self := {| start_time := start_time (self s);
                                 total_carbon := c |} |}).

(** [__init__]: the construction time is read from the clock. *)
Definition init (o : OS) : St :=
  {| os := o; self := {| start_time := clock o; total_carbon := 0 |} |}.

(** [x / d] for a dict value [x]: a [TypeError] unless [x] is a number. *)
Definition py_div (x : value) (d : Q) : M St Q :=
  match x with
  | VNum q => ret (q / d)
  | VOther => raise TypeError
  end.

Definition calculate_cpu_power : M St Q :=
  cpu_percent <- psutil_cpu_percent 1;;
  let power_watts := IDLE_POWER + (CPU_TDP * (cpu_percent / 100)) in
  ret power_watts.

Definition calculate_network_carbon (bytes_transferred : value) : M St Q :=
  gb_transferred <- py_div bytes_transferred (1024 ^ 3);;
  let energy_kwh := gb_transferred * NETWORK_POWER_PER_GB in
  let carbon_kg := energy_kwh * GRID_CARBON_INTENSITY in
  ret (carbon_kg * 1000).

Definition calculate_total_energy (duration_hours : Q) : M St Q :=
  cpu_power <- calculate_cpu_power;;
  let energy_kwh := (cpu_power * duration_hours) / 1000 in
  ret energy_kwh.

Module Cpu.
Record t : Type := {
  usage_percent : Q; power_watts : Q; energy_kwh : Q; carbon_grams : Q }.
End Cpu.
Module Network.
Record t : Type := { total_gb : Q; carbon_grams : Q }.
End Network.
Module Memory.
Record t : Type := { usage_percent : Q; used_gb : Q; total_gb : Q }.
End Memory.
Module Total.
Record t : Type := {
  carbon_grams : Q; carbon_kg : Q; runtime_hours : Q; total_energy_kwh : Q }.
End Total.

Record CarbonMetrics : Type := {
  cpu : Cpu.t;
  network : Network.t;
  memory : Memory.t;
  total : Total.t
}.

(** [d.get(key, dflt)] *)
Definition dict_get (d : gmap string value) (key : string) (dflt : value) : value :=
  match d !! key with
  | Some v => v
  | None => dflt
  end.

Definition get_carbon_metrics (network_stats : gmap string value)
  : M St CarbonMetrics :=
  now <- time_time;;
  s <- get;;
  let runtime_hours := (now - start_time (self s)) / 3600 in
  cpu_percent <- psutil_cpu_percent 1;;
  cpu_power <- calculate_cpu_power;;
  cpu_energy <- calculate_total_energy runtime_hours;;
  let cpu_carbon := cpu_energy * GRID_CARBON_INTENSITY * 1000 in
  let total_bytes := dict_get network_stats "total_bytes" (VNum 0) in
  network_carbon <- calculate_network_carbon total_bytes;;
  memory <- psutil_virtual_memory;;
  let memory_percent := Svmem.percent memory in
  let total_carbon := cpu_carbon + network_carbon in
  set_total_carbon total_carbon;;;
  total_gb <- py_div total_bytes (1024 ^ 3);;
  ret {| cpu := {| Cpu.usage_percent := cpu_percent;
                   Cpu.power_watts := cpu_power;
                   Cpu.energy_kwh := cpu_energy;
                   Cpu.carbon_grams := cpu_carbon |};
         network := {| Network.total_gb := total_gb;
                       Network.carbon_grams := network_carbon |};
         memory := {| Memory.usage_percent := memory_percent;
                      Memory.used_gb := Svmem.used memory / (1024 ^ 3);
                      Memory.total_gb := Svmem.total memory / (1024 ^ 3) |};
         total := {| Total.carbon_grams := total_carbon;
                     Total.carbon_kg := total_carbon / 1000;
                     Total.runtime_hours := runtime_hours;
                     Total.total_energy_kwh := cpu_energy |} |}.

Record SavingsEstimate : Type := {
  name : string;
  description : string;
  potential_reduction_percent : Z;
  estimated_savings_grams : Q
}.

Definition savings (self : CarbonCalculator) : gmap string SavingsEstimate :=
  <["reduce_cpu" :=
      {| name := "Reduce CPU Usage";
         description := "Limit background processes and CPU-intensive tasks";
         potential_reduction_percent := 30;
         estimated_savings_grams := total_carbon self * 0.30 |}]>
  (<["optimize_network" :=
      {| name := "Optimize Network Traffic";
         description :=
           "Compress data, cache content, reduce unnecessary requests";
         potential_reduction_percent := 25;
         estimated_savings_grams := total_carbon self * 0.25 |}]>
  (<["power_management" :=
      {| name := "Enable Power Management";
         description :=
           "Use power-saving modes, reduce screen brightness, sleep idle processes";
         potential_reduction_percent := 40;
         estimated_savings_grams := total_carbon self * 0.40 |}]> ∅)).

(** [d[key]] *)
Definition dict_item {V} (d : gmap string V) (key : string) : outcome V :=
  match d !! key with
  | Some v => Ok v
  | None => Raise KeyError
  end.

(** [savings.get(optimization_type, savings['reduce_cpu'])]: the default
    argument is evaluated before the lookup. *)
Definition estimate_savings (self : CarbonCalculator)
    (optimization_type : string) : outcome SavingsEstimate :=
  match dict_item (savings self) "reduce_cpu" with
  | Ok dflt =>
      Ok (match savings self !! optimization_type with
          | Some e => e
          | None => dflt
          end)
  | Raise e => Raise e
  end.

End Calculator.

(** ** [bpf_monitor.py] *)

Module Monitor.
Local Open Scope N_scope.
Local Open Scope monad_scope.

(** [struct event_data_t], as decoded by [self.bpf["events"].event(data)];
    [comm] stands for [event.comm.decode('utf-8', 'replace')]. *)
Module Event.
Record t : Type := {
  pid : N; saddr : N; daddr : N; sport : N; dport : N;
  bytes : N; comm : string; event_type : N }.
End Event.

(** A value of [process_stats]: [{'packets': _, 'bytes': _}]. *)
Module Bucket.
Record t : Type := { packets : N; bytes : N }.
Definition zero : t := {| packets := 0; bytes := 0 |}.
End Bucket.

(** The probe object of bcc: the kprobes attached so far, as (event,
    fn_name), and the tables opened so far.  A table is opened the first
    time the object is indexed with its name ([self.bpf["events"]]). *)
Record BPF : Type := {
  kprobes : list (string * string);
  tables : list string
}.

Record BPFNetworkMonitor : Type := {
  packet_count : N;
  bytes_sent : N;
  bytes_received : N;
  active_connections : N;
  process_stats : gmap string Bucket.t;
  running : bool;
  bpf : option BPF;
  monitor_thread : bool
}.

Definition init : BPFNetworkMonitor :=
  {| packet_count := 0; bytes_sent := 0; bytes_received := 0;
     active_connections := 0; process_stats := ∅; running := false;
     bpf := None; monitor_thread := false |}.

Definition set_bpf (b : option BPF) (s : BPFNetworkMonitor) :=
  {| packet_count := packet_count s; bytes_sent := bytes_sent s;
     bytes_received := bytes_received s;
     active_connections := active_connections s;
     process_stats := process_stats s; running := running s;
     bpf := b; monitor_thread := monitor_thread s |}.

Definition set_running (r : bool) (s : BPFNetworkMonitor) :=
  {| packet_count := packet_count s; bytes_sent := bytes_sent s;
     bytes_received := bytes_received s;
     active_connections := active_connections s;
     process_stats := process_stats s; running := r;
     bpf := bpf s; monitor_thread := monitor_thread s |}.

Definition set_monitor_thread (t : bool) (s : BPFNetworkMonitor) :=
  {| packet_count := packet_count s; bytes_sent := bytes_sent s;
     bytes_received := bytes_received s;
     active_connections := active_connections s;
     process_stats := process_stats s; running := running s;
     bpf := bpf s; monitor_thread := t |}.

Definition set_active_connections (n : N) (s : BPFNetworkMonitor) :=
  {| packet_count := packet_count s; bytes_sent := bytes_sent s;
     bytes_received := bytes_received s;
     active_connections := n;
     process_stats := process_stats s; running := running s;
     bpf := bpf s; monitor_thread := monitor_thread s |}.

(** What the host lets the probe toolchain do. *)
Record Kernel : Type := {
  bpf_compiles : bool;
  kprobe_attaches : string -> bool;
  thread_starts : bool
}.

(** [BPF(text=self.bpf_text)] *)
Definition new_BPF (k : Kernel) : M BPFNetworkMonitor BPF :=
  if bpf_compiles k then ret {| kprobes := []; tables := [] |}
  else raise BackendError.

(** [self.bpf.attach_kprobe(event=.., fn_name=..)] *)
Definition attach_kprobe (k : Kernel) (event fn_name : string)
  : M BPFNetworkMonitor unit :=
  fun s => match bpf s with
           | Some b =>
               if kprobe_attaches k event
               then (Ok tt,
                     set_bpf (Some {| kprobes := kprobes b ++ [(event, fn_name)];
                                      tables := tables b |}) s)
               else (Raise BackendError, s)
           | None => (Raise OtherError, s)
           end.

(** [threading.Thread(target=self._process_events, daemon=True)] followed
    by [start()]. *)
Definition start_thread (k : Kernel) : M BPFNetworkMonitor unit :=
  if thread_starts k then modify (set_monitor_thread true)
  else raise OtherError.

(** [except Exception] handles every exception of the model. *)
Definition is_Exception (e : exn) : bool := true.

Definition start_monitoring (k : Kernel) : M BPFNetworkMonitor bool :=
  try_except
    (b <- new_BPF k;;
     modify (set_bpf (Some b));;;
     attach_kprobe k "tcp_sendmsg" "trace_tcp_sendmsg";;;
     attach_kprobe k "tcp_recvmsg" "trace_tcp_recvmsg";;;
     attach_kprobe k "udp_sendmsg" "trace_udp_sendmsg";;;
     modify (set_running true);;;
     start_thread k;;;
     ret true)
    is_Exception
    (fun _ => ret false).

(** [self.process_stats[comm]] on a [defaultdict]: a missing key reads as
    the zero bucket. *)
Definition bucket_of (ps : gmap string Bucket.t) (comm : string) : Bucket.t :=
  match ps !! comm with
  | Some b => b
  | None => Bucket.zero
  end.

(** The body of [handle_event], run under [self.lock]. *)
Definition handle_event (event : Event.t) (s : BPFNetworkMonitor)
  : BPFNetworkMonitor :=
  let packet_count' := packet_count s + 1 in
  if (Event.event_type event =? 1) || (Event.event_type event =? 3) then
    let comm := Event.comm event in
    let b := bucket_of (process_stats s) comm in
    {| packet_count := packet_count';
       bytes_sent := bytes_sent s + Event.bytes event;
       bytes_received := bytes_received s;
       active_connections := active_connections s;
       process_stats :=
         <[comm := {| Bucket.packets := Bucket.packets b + 1;
                      Bucket.bytes := Bucket.bytes b + Event.bytes event |}]>
           (process_stats s);
       running := running s; bpf := bpf s;
       monitor_thread := monitor_thread s |}
  else if Event.event_type event =? 2 then
    {| packet_count := packet_count';
       bytes_sent := bytes_sent s;
       bytes_received := bytes_received s + 1024;
       active_connections := active_connections s;
       process_stats := process_stats s;
       running := running s; bpf := bpf s;
       monitor_thread := monitor_thread s |}
  else
    {| packet_count := packet_count';
       bytes_sent := bytes_sent s;
       bytes_received := bytes_received s;
       active_connections := active_connections s;
       process_stats := process_stats s;
       running := running s; bpf := bpf s;
       monitor_thread := monitor_thread s |}.

(** One [perf_buffer_poll]: the callback runs on each event delivered. *)
Definition perf_buffer_poll (batch : list Event.t) (s : BPFNetworkMonitor)
  : BPFNetworkMonitor :=
  foldl (fun s e => handle_event e s) s batch.

(** The truth value of [self.bpf].  [None] is false.  bcc's [BPF] class
    defines [__len__] as the number of its opened tables and no
    [__bool__], so a probe object is true only once a table was opened. *)
Definition bpf_truth (s : BPFNetworkMonitor) : bool :=
  match bpf s with
  | Some b => match tables b with [] => false | _ :: _ => true end
  | None => false
  end.

(** [self.bpf[name]]: opens the table on first use. *)
Definition open_table (name : string) (s : BPFNetworkMonitor)
  : BPFNetworkMonitor :=
  match bpf s with
  | Some b =>
      if bool_decide (name ∈ tables b) then s
      else set_bpf (Some {| kprobes := kprobes b;
                            tables := tables b ++ [name] |}) s
  | None => s
  end.

(** [_process_events] over the batches its polls deliver: nothing unless
    [self.bpf] is true; then the events table is opened for
    [open_perf_buffer], and there is a poll only while [self.running]. *)
Definition _process_events (polls : list (list Event.t))
    (s : BPFNetworkMonitor) : BPFNetworkMonitor :=
  if bpf_truth s then
    foldl (fun s batch => if running s then perf_buffer_poll batch s else s)
          (open_table "events" s) polls
  else s.

(** [psutil.net_io_counters()] *)
Module Netio.
Record t : Type := {
  bytes_sent : N; bytes_recv : N; packets_sent : N; packets_recv : N }.
End Netio.

(** An entry of [psutil.net_connections()]. *)
Record sconn : Type := { fd : Z; conn_pid : option N }.

Record NetOS : Type := {
  net_io_counters : Netio.t;
  net_connections : list sconn
}.

(** The dict [get_stats] returns. *)
Module Stats.
Record t : Type := {
  packet_count : N;
  bytes_sent : N;
  bytes_received : N;
  total_bytes : N;
  active_connections : N;
  process_stats : gmap string Bucket.t
  }.
End Stats.

Definition mirror (net_io : Netio.t) (s : BPFNetworkMonitor) :=
  {| packet_count := Netio.packets_sent net_io + Netio.packets_recv net_io;
     bytes_sent := Netio.bytes_sent net_io;
     bytes_received := Netio.bytes_recv net_io;
     active_connections := active_connections s;
     process_stats := process_stats s; running := running s;
     bpf := bpf s; monitor_thread := monitor_thread s |}.

(** [not self.bpf] *)
Definition not_bpf (s : BPFNetworkMonitor) : bool := negb (bpf_truth s).

Definition get_stats (o : NetOS) : M BPFNetworkMonitor Stats.t :=
  s <- get;;
  (if not_bpf s then modify (mirror (net_io_counters o)) else ret tt);;;
  modify (set_active_connections (N.of_nat (length (net_connections o))));;;
  s <- get;;
  ret {| Stats.packet_count := packet_count s;
         Stats.bytes_sent := bytes_sent s;
         Stats.bytes_received := bytes_received s;
         Stats.total_bytes := bytes_sent s + bytes_received s;
         Stats.active_connections := active_connections s;
         Stats.process_stats := process_stats s |}.

Definition stop_monitoring : M BPFNetworkMonitor unit :=
  modify (set_running false).

(** [proc.info] of an entry of [psutil.process_iter([...])].  psutil
    fills it with [as_dict(attrs, ad_value=None)]: an attribute it is
    denied access to is [None], not an exception. *)
Module Pinfo.
Record t : Type := {
  pid : N;
  name : option string;
  cpu_percent : option Q;
  memory_percent : option Q
}.
End Pinfo.

(** An element of the list [get_process_list] returns. *)
Module Proc.
Record t : Type := {
  pid : N; name : option string; cpu : option Q; memory : option Q }.
End Proc.

Definition entry (pinfo : Pinfo.t) : Proc.t :=
  {| Proc.pid := Pinfo.pid pinfo; Proc.name := Pinfo.name pinfo;
     Proc.cpu := Pinfo.cpu_percent pinfo;
     Proc.memory := Pinfo.memory_percent pinfo |}.

Definition vanished_or_denied (e : exn) : bool :=
  match e with
  | NoSuchProcess | AccessDenied => true
  | _ => false
  end.

(** The [for] loop with its [try]: an element stands for one run of the
    body, which gives the attributes of [proc.info] or raises; the two
    handled exceptions skip the process.  With [psutil.process_iter] the
    body does not raise for a process that may not be read: its
    attributes are [None]. *)
Fixpoint enumerate (procs : list (outcome Pinfo.t)) (processes : list Proc.t)
  : outcome (list Proc.t) :=
  match procs with
  | [] => Ok processes
  | Ok pinfo :: rest => enumerate rest (processes ++ [entry pinfo])
  | Raise e :: rest =>
      if vanished_or_denied e then enumerate rest processes else Raise e
  end.

(** [a < b] on two values of the ['cpu'] key: [None] is not ordered
    with anything. *)
Definition py_lt (a b : option Q) : outcome bool :=
  match a, b with
  | Some x, Some y => Ok (negb (Qle_bool y x))
  | _, _ => Raise TypeError
  end.

(** [sorted(.., key=lambda x: x['cpu'], reverse=True)]: the stable
    descending order, elements of equal key staying in their order; a
    key comparison that raises ends the sort.  A list of one element is
    returned without any comparison. *)
Fixpoint insert_desc (x : Proc.t) (l : list Proc.t) : outcome (list Proc.t) :=
  match l with
  | [] => Ok [x]
  | y :: l' =>
      match py_lt (Proc.cpu x) (Proc.cpu y) with
      | Ok true =>
          match insert_desc x l' with
          | Ok r => Ok (y :: r)
          | Raise e => Raise e
          end
      | Ok false => Ok (x :: y :: l')
      | Raise e => Raise e
      end
  end.

Definition sorted_desc (l : list Proc.t) : outcome (list Proc.t) :=
  foldr (fun x acc => match acc with
                      | Ok r => insert_desc x r
                      | Raise e => Raise e
                      end) (Ok []) l.

Definition get_process_list (procs : list (outcome Pinfo.t))
  : outcome (list Proc.t) :=
  match enumerate procs [] with
  | Ok processes =>
      match sorted_desc processes with
      | Ok r => Ok (take 20 r)
      | Raise e => Raise e
      end
  | Raise e => Raise e
  end.

End Monitor.

(** ** The collection loop of [app.py] *)

Module App.
Local Open Scope Q_scope.

Record History : Type := {
  timestamps : list string;
  cpu_usage : list Q;
  network_bytes : list Q;
  carbon_emissions : list Q;
  energy_consumption : list Q
}.

Definition historical_data0 : History :=
  {| timestamps := []; cpu_usage := []; network_bytes := [];
     carbon_emissions := []; energy_consumption := [] |}.

(** [l[-n:]] for [n > 0] *)
Definition slice_last {A} (n : nat) (l : list A) : list A :=
  drop (length l - n) l.

(** [if len(l) > 100: l = l[-100:]] *)
Definition trim {A} (l : list A) : list A :=
  if (100 <? length l)%nat then slice_last 100 l else l.

(** The values one cycle appends. *)
Record Point : Type := {
  timestamp : string;
  cpuUsage : Q;
  networkMB : Q;
  carbonGrams : Q;
  energyWh : Q
}.

Definition store (p : Point) (h : History) : History :=
  let h1 :=
    {| timestamps := timestamps h ++ [timestamp p];
       cpu_usage := cpu_usage h ++ [cpuUsage p];
       network_bytes := network_bytes h ++ [networkMB p];
       carbon_emissions := carbon_emissions h ++ [carbonGrams p];
       energy_consumption := energy_consumption h ++ [energyWh p] |} in
  {| timestamps := trim (timestamps h1);
     cpu_usage := trim (cpu_usage h1);
     network_bytes := trim (network_bytes h1);
     carbon_emissions := trim (carbon_emissions h1);
     energy_consumption := trim (energy_consumption h1) |}.

(** The dict handed to the calculator. *)
Definition NQ (n : N) : Q := inject_Z (Z.of_N n).

Definition stats_dict (st : Monitor.Stats.t) : gmap string Calculator.value :=
  <["packet_count" := Calculator.VNum (NQ (Monitor.Stats.packet_count st))]>
  (<["bytes_sent" := Calculator.VNum (NQ (Monitor.Stats.bytes_sent st))]>
  (<["bytes_received" := Calculator.VNum (NQ (Monitor.Stats.bytes_received st))]>
  (<["total_bytes" := Calculator.VNum (NQ (Monitor.Stats.total_bytes st))]>
  (<["active_connections" :=
       Calculator.VNum (NQ (Monitor.Stats.active_connections st))]>
  (<["process_stats" := Calculator.VOther]> ∅))))).

Record System : Type := {
  monitor : Monitor.BPFNetworkMonitor;
  calculator : Calculator.CarbonCalculator;
  historical_data : History
}.

(** What the host shows during one cycle. *)
Record Tick : Type := {
  tick_net : Monitor.NetOS;
  tick_os : Calculator.OS;
  tick_time : string
}.

(** The [try] block of [collect_data] up to the values it appends;
    [None] when an exception ended the cycle. *)
Definition measure (t : Tick) (sys : System)
  : Monitor.BPFNetworkMonitor * Calculator.CarbonCalculator * option Point :=
  match Monitor.get_stats (tick_net t) (monitor sys) with
  | (Raise _, mon') => (mon', calculator sys, None)
  | (Ok net_stats, mon') =>
      match Calculator.get_carbon_metrics (stats_dict net_stats)
              {| Calculator.os := tick_os t;
                 Calculator.self := calculator sys |} with
      | (Raise _, st') => (mon', Calculator.self st', None)
      | (Ok carbon_metrics, st') =>
          (mon', Calculator.self st',
           Some {| timestamp := tick_time t;
                   cpuUsage :=
                     Calculator.Cpu.usage_percent (Calculator.cpu carbon_metrics);
                   networkMB :=
                     NQ (Monitor.Stats.total_bytes net_stats) / (1024 * 1024);
                   carbonGrams :=
                     Calculator.Total.carbon_grams
                       (Calculator.total carbon_metrics);
                   energyWh :=
                     Calculator.Total.total_energy_kwh
                       (Calculator.total carbon_metrics) * 1000 |})
      end
  end.

(** One iteration of the [while monitoring_active] loop. *)
Definition collect_once (t : Tick) (sys : System) : System :=
  let '(mon', calc', p) := measure t sys in
  {| monitor := mon'; calculator := calc';
     historical_data :=
       match p with
       | Some p => store p (historical_data sys)
       | None => historical_data sys
       end |}.

Definition collect_data (ticks : list Tick) (sys : System) : System :=
  foldl (fun sys t => collect_once t sys) sys ticks.

(** The points appended during [collect_data], in arrival order. *)
Fixpoint appended (ticks : list Tick) (sys : System) : list Point :=
  match ticks with
  | [] => []
  | t :: ticks' =>
      match measure t sys with
      | (_, _, Some p) => p :: appended ticks' (collect_once t sys)
      | (_, _, None) => appended ticks' (collect_once t sys)
      end
  end.

(** The process at start-up: empty history. *)
Definition boot (m : Monitor.BPFNetworkMonitor)
    (c : Calculator.CarbonCalculator) : System :=
  {| monitor := m; calculator := c; historical_data := historical_data0 |}.

End App.

(** ** Concrete inputs *)

Module Samples.
Import Calculator.
Local Open Scope Q_scope.

(** One hour after construction, the CPU idle at every sample. *)
Definition idle_hour : St :=
  {| os := {| clock := 5000; cpu_feed := fun _ => 0; cpu_reads := 0;
              vm_percent := 40; vm_used := 4294967296;
              vm_total := 8589934592 |};
     self := {| start_time := 1400; total_carbon := 0 |} |}.

(** The CPU idle at the first sample of a call and saturated at the second. *)
Definition bursty_hour : St :=
  {| os := {| clock := 3600;
              cpu_feed := fun k => match k with 1%nat => 100 | _ => 0 end;
              cpu_reads := 0;
              vm_percent := 40; vm_used := 4294967296;
              vm_total := 8589934592 |};
     self := {| start_time := 0; total_carbon := 0 |} |}.

Definition gigabyte_snapshot : Monitor.Stats.t :=
  {| Monitor.Stats.packet_count := 1000;
     Monitor.Stats.bytes_sent := 500000000;
     Monitor.Stats.bytes_received := 500000000;
     Monitor.Stats.total_bytes := 1000000000;
     Monitor.Stats.active_connections := 3;
     Monitor.Stats.process_stats := ∅ |}.

(** A host where the probe program loads and no kprobe can be attached. *)
Definition no_kprobes : Monitor.Kernel :=
  {| Monitor.bpf_compiles := true;
     Monitor.kprobe_attaches := fun _ => false;
     Monitor.thread_starts := true |}.

(** A host without the probe toolchain. *)
Definition no_toolchain : Monitor.Kernel :=
  {| Monitor.bpf_compiles := false;
     Monitor.kprobe_attaches := fun _ => false;
     Monitor.thread_starts := true |}.

Definition busy_net : Monitor.NetOS :=
  {| Monitor.net_io_counters :=
       {| Monitor.Netio.bytes_sent := 7000; Monitor.Netio.bytes_recv := 9000;
          Monitor.Netio.packets_sent := 12; Monitor.Netio.packets_recv := 15 |};
     Monitor.net_connections :=
       [ {| Monitor.fd := 3; Monitor.conn_pid := Some 41%N |} ] |}.

Definition busier_net : Monitor.NetOS :=
  {| Monitor.net_io_counters :=
       {| Monitor.Netio.bytes_sent := 7600; Monitor.Netio.bytes_recv := 9000;
          Monitor.Netio.packets_sent := 14; Monitor.Netio.packets_recv := 15 |};
     Monitor.net_connections := [] |}.

Definition tcp_send : Monitor.Event.t :=
  {| Monitor.Event.pid := 41; Monitor.Event.saddr := 0;
     Monitor.Event.daddr := 0; Monitor.Event.sport := 0;
     Monitor.Event.dport := 443; Monitor.Event.bytes := 1500;
     Monitor.Event.comm := "curl"; Monitor.Event.event_type := 1 |}.

Definition tcp_recv : Monitor.Event.t :=
  {| Monitor.Event.pid := 41; Monitor.Event.saddr := 0;
     Monitor.Event.daddr := 0; Monitor.Event.sport := 0;
     Monitor.Event.dport := 0; Monitor.Event.bytes := 0;
     Monitor.Event.comm := "curl"; Monitor.Event.event_type := 2 |}.

Definition process_table : list (outcome Monitor.Pinfo.t) :=
  [ Ok {| Monitor.Pinfo.pid := 1; Monitor.Pinfo.name := Some "init";
          Monitor.Pinfo.cpu_percent := Some 0.5%Q;
          Monitor.Pinfo.memory_percent := Some 0.1%Q |};
    Raise NoSuchProcess;
    Ok {| Monitor.Pinfo.pid := 41; Monitor.Pinfo.name := Some "curl";
          Monitor.Pinfo.cpu_percent := Some 12%Q;
          Monitor.Pinfo.memory_percent := Some 1%Q |};
    Raise AccessDenied ].

(** A process of another user: psutil hands it over with [None] for what
    it may not read. *)
Definition inaccessible : Monitor.Pinfo.t :=
  {| Monitor.Pinfo.pid := 2; Monitor.Pinfo.name := Some "kthreadd";
     Monitor.Pinfo.cpu_percent := None;
     Monitor.Pinfo.memory_percent := None |}.

(** The process table as [process_iter] yields it: no read raises. *)
Definition guarded_table : list (outcome Monitor.Pinfo.t) :=
  [ Ok {| Monitor.Pinfo.pid := 1; Monitor.Pinfo.name := Some "init";
          Monitor.Pinfo.cpu_percent := Some 0.5%Q;
          Monitor.Pinfo.memory_percent := Some 0.1%Q |};
    Ok inaccessible ].

(** A monitor whose probe object has its events table opened. *)
Definition open_probe : Monitor.BPFNetworkMonitor :=
  {| Monitor.packet_count := 5; Monitor.bytes_sent := 300;
     Monitor.bytes_received := 2048; Monitor.active_connections := 0;
     Monitor.process_stats := ∅; Monitor.running := true;
     Monitor.bpf := Some {| Monitor.kprobes := []; Monitor.tables := ["events"] |};
     Monitor.monitor_thread := true |}.

End Samples.

(** ** The calculator *)

Module CalculatorFacts.
Import Calculator.
Local Open Scope Q_scope.

(** The transferred bytes the calculator works with: the number under
    ['total_bytes'], 0 when the key is absent. *)
Definition total_bytes_of (network_stats : gmap string value) (b : Q) : Prop :=
  dict_get network_stats "total_bytes" (VNum 0) = VNum b.

(** The three CPU samples one call of [get_carbon_metrics] consumes. *)
Definition sample1 (s : St) : Q := cpu_feed (os s) (cpu_reads (os s)).
Definition sample2 (s : St) : Q := cpu_feed (os s) (S (cpu_reads (os s))).
Definition sample3 (s : St) : Q := cpu_feed (os s) (S (S (cpu_reads (os s)))).
Definition runtime (s : St) : Q := (clock (os s) - start_time (self s)) / 3600.

Lemma get_carbon_metrics_run network_stats b s :
  total_bytes_of network_stats b ->
  exists m s',
    get_carbon_metrics network_stats s = (Ok m, s') /\
    total_carbon (self s') = Total.carbon_grams (total m) /\
    Cpu.usage_percent (cpu m) = sample1 s /\
    Cpu.power_watts (cpu m) = IDLE_POWER + CPU_TDP * (sample2 s / 100) /\
    Cpu.energy_kwh (cpu m) =
      (IDLE_POWER + CPU_TDP * (sample3 s / 100)) * runtime s / 1000 /\
    Cpu.carbon_grams (cpu m) =
      Cpu.energy_kwh (cpu m) * GRID_CARBON_INTENSITY * 1000 /\
    Network.total_gb (network m) = b / (1024 ^ 3) /\
    Network.carbon_grams (network m) =
      b / (1024 ^ 3) * NETWORK_POWER_PER_GB * GRID_CARBON_INTENSITY * 1000 /\
    Total.carbon_grams (total m) =
      Cpu.carbon_grams (cpu m) + Network.carbon_grams (network m) /\
    Total.carbon_kg (total m) = Total.carbon_grams (total m) / 1000 /\
    Total.runtime_hours (total m) = runtime s /\
    Total.total_energy_kwh (total m) = Cpu.energy_kwh (cpu m) /\
    Memory.usage_percent (memory m) = vm_percent (os s) /\
    Memory.used_gb (memory m) = vm_used (os s) / (1024 ^ 3) /\
    Memory.total_gb (memory m) = vm_total (os s) / (1024 ^ 3).
Proof.
  unfold total_bytes_of. intros Hb.
  unfold get_carbon_metrics, calculate_total_energy, calculate_cpu_power,
    calculate_network_carbon.
  rewrite Hb.
  eexists. eexists. split; [reflexivity|].
  cbn. repeat split; reflexivity.
Qed.

(** A non-numeric value under ['total_bytes'] makes the call raise: the
    failure that an absent key avoids. *)
Lemma get_carbon_metrics_type_error network_stats s :
  network_stats !! "total_bytes" = Some VOther ->
  exists s', get_carbon_metrics network_stats s = (Raise TypeError, s').
Proof.
  intros H.
  unfold get_carbon_metrics, calculate_total_energy, calculate_cpu_power,
    calculate_network_carbon, dict_get.
  rewrite H. eexists. reflexivity.
Qed.

Lemma total_bytes_of_present network_stats b :
  network_stats !! "total_bytes" = Some (VNum b) ->
  total_bytes_of network_stats b.
Proof. unfold total_bytes_of, dict_get. now intros ->. Qed.

Lemma total_bytes_of_absent network_stats :
  network_stats !! "total_bytes" = None ->
  total_bytes_of network_stats 0.
Proof. unfold total_bytes_of, dict_get. now intros ->. Qed.

(** C1. With every CPU sample of the call reading 0 percent, exactly one
    hour elapsed since construction and [total_bytes] = 1_000_000_000,
    [get_carbon_metrics] returns cpu power 50 W, cpu energy 0.05 kWh, cpu
    carbon 25 g, network carbon (10^9 / 2^30) * 0.06 * 0.5 * 1000 g (about
    27.94) and a total equal to the sum of the two (about 52.94). *)
Theorem C1_idle_hour_one_gigabyte network_stats s b :
  (forall k, cpu_feed (os s) k == 0) ->
  clock (os s) - start_time (self s) == 3600 ->
  network_stats !! "total_bytes" = Some (VNum b) ->
  b == 1000000000 ->
  exists m s',
    get_carbon_metrics network_stats s = (Ok m, s') /\
    Cpu.power_watts (cpu m) == 50 /\
    Cpu.energy_kwh (cpu m) == 0.05 /\
    Cpu.carbon_grams (cpu m) == 25 /\
    Network.carbon_grams (network m) == (10 ^ 9 / 2 ^ 30) * 0.06 * 0.5 * 1000 /\
    Total.carbon_grams (total m) ==
      Cpu.carbon_grams (cpu m) + Network.carbon_grams (network m) /\
    (27.935 < Network.carbon_grams (network m) < 27.945) /\
    (52.935 < Total.carbon_grams (total m) < 52.945).
Proof.
  intros Hcpu Hrun Hkey Hb.
  destruct (get_carbon_metrics_run network_stats b s
              (total_bytes_of_present _ _ Hkey))
    as (m & s' & Hm & _ & _ & Hp & He & Hc & _ & Hn & Ht & _).
  exists m, s'. split; [exact Hm|].
  assert (Ep : Cpu.power_watts (cpu m) == 50).
  { rewrite Hp. unfold sample2. rewrite Hcpu. reflexivity. }
  assert (Ee : Cpu.energy_kwh (cpu m) == 0.05).
  { rewrite He. unfold sample3, runtime. rewrite Hcpu, Hrun. reflexivity. }
  assert (Ec : Cpu.carbon_grams (cpu m) == 25).
  { rewrite Hc, Ee. reflexivity. }
  assert (En : Network.carbon_grams (network m)
               == (10 ^ 9 / 2 ^ 30) * 0.06 * 0.5 * 1000).
  { rewrite Hn, Hb. reflexivity. }
  assert (Et : Total.carbon_grams (total m) ==
               Cpu.carbon_grams (cpu m) + Network.carbon_grams (network m)).
  { rewrite Ht. reflexivity. }
  repeat split; try assumption.
  - rewrite En. reflexivity.
  - rewrite En. reflexivity.
  - rewrite Et, Ec, En. reflexivity.
  - rewrite Et, Ec, En. reflexivity.
Qed.

Lemma C1_idle_hour_one_gigabyte_witness :
  exists m s',
    get_carbon_metrics (App.stats_dict Samples.gigabyte_snapshot)
      Samples.idle_hour = (Ok m, s') /\
    Cpu.carbon_grams (cpu m) == 25.
Proof.
  destruct (C1_idle_hour_one_gigabyte
              (App.stats_dict Samples.gigabyte_snapshot) Samples.idle_hour
              1000000000)
    as (m & s' & Hm & _ & _ & Hc & _).
  - intros k. reflexivity.
  - reflexivity.
  - reflexivity.
  - reflexivity.
  - exists m, s'. split; [exact Hm | exact Hc].
Defined.

(** Two calls see the same inputs: elapsed time, the three CPU samples and
    the memory readings agree. *)
Definition same_inputs (s1 s2 : St) : Prop :=
  runtime s1 == runtime s2 /\
  sample1 s1 == sample1 s2 /\ sample2 s1 == sample2 s2 /\
  sample3 s1 == sample3 s2 /\
  vm_percent (os s1) == vm_percent (os s2) /\
  vm_used (os s1) == vm_used (os s2) /\
  vm_total (os s1) == vm_total (os s2).

Definition same_metrics (m1 m2 : CarbonMetrics) : Prop :=
  Cpu.usage_percent (cpu m1) == Cpu.usage_percent (cpu m2) /\
  Cpu.power_watts (cpu m1) == Cpu.power_watts (cpu m2) /\
  Cpu.energy_kwh (cpu m1) == Cpu.energy_kwh (cpu m2) /\
  Cpu.carbon_grams (cpu m1) == Cpu.carbon_grams (cpu m2) /\
  Network.total_gb (network m1) == Network.total_gb (network m2) /\
  Network.carbon_grams (network m1) == Network.carbon_grams (network m2) /\
  Memory.usage_percent (memory m1) == Memory.usage_percent (memory m2) /\
  Memory.used_gb (memory m1) == Memory.used_gb (memory m2) /\
  Memory.total_gb (memory m1) == Memory.total_gb (memory m2) /\
  Total.carbon_grams (total m1) == Total.carbon_grams (total m2) /\
  Total.carbon_kg (total m1) == Total.carbon_kg (total m2) /\
  Total.runtime_hours (total m1) == Total.runtime_hours (total m2) /\
  Total.total_energy_kwh (total m1) == Total.total_energy_kwh (total m2).

(** C7, as stated, fails: the reported usage is the first CPU sample of
    the call and the power comes from the second.  Idle at the first
    sample and saturated at the second, the call reports 0 percent usage
    and 115 W, not 50 W. *)
Lemma C7_power_differs_from_reported_usage :
  exists m s',
    get_carbon_metrics ∅ Samples.bursty_hour = (Ok m, s') /\
    Cpu.usage_percent (cpu m) == 0 /\
    Cpu.power_watts (cpu m) == 115 /\
    ~ Cpu.power_watts (cpu m) == 50 + 65 * (Cpu.usage_percent (cpu m) / 100).
Proof.
  eexists. eexists. split; [vm_compute; reflexivity|].
  cbn. repeat split. intros H. vm_compute in H. discriminate H.
Qed.

(** C7, amended. [get_carbon_metrics] reports as usage the first CPU
    sample of the call and computes the power as 50 + 65 * (u / 100) from
    the second sample u, the one [calculate_cpu_power] takes itself; the
    power matches the reported usage when the two samples agree.  Two
    calls with the same elapsed time, CPU samples, memory readings and
    [total_bytes] return the same metrics. *)
Theorem C7_power_from_own_sample network_stats1 network_stats2 b1 b2 s1 s2 :
  total_bytes_of network_stats1 b1 ->
  total_bytes_of network_stats2 b2 ->
  b1 == b2 ->
  same_inputs s1 s2 ->
  exists m1 s1' m2 s2',
    get_carbon_metrics network_stats1 s1 = (Ok m1, s1') /\
    get_carbon_metrics network_stats2 s2 = (Ok m2, s2') /\
    Cpu.usage_percent (cpu m1) = sample1 s1 /\
    Cpu.power_watts (cpu m1) == 50 + 65 * (sample2 s1 / 100) /\
    (sample1 s1 == sample2 s1 ->
     Cpu.power_watts (cpu m1) == 50 + 65 * (Cpu.usage_percent (cpu m1) / 100)) /\
    same_metrics m1 m2.
Proof.
  intros H1 H2 Hb (Hr & Ha & Hb' & Hc & Hp & Hu & Ht).
  destruct (get_carbon_metrics_run network_stats1 b1 s1 H1)
    as (m1 & s1' & R1 & _ & U1 & P1 & E1 & C1 & G1 & N1 & T1 & K1 & RH1
        & TE1 & MP1 & MU1 & MT1).
  destruct (get_carbon_metrics_run network_stats2 b2 s2 H2)
    as (m2 & s2' & R2 & _ & U2 & P2 & E2 & C2 & G2 & N2 & T2 & K2 & RH2
        & TE2 & MP2 & MU2 & MT2).
  exists m1, s1', m2, s2'.
  assert (EE : Cpu.energy_kwh (cpu m1) == Cpu.energy_kwh (cpu m2)).
  { rewrite E1, E2, Hc, Hr. reflexivity. }
  assert (EC : Cpu.carbon_grams (cpu m1) == Cpu.carbon_grams (cpu m2)).
  { rewrite C1, C2, EE. reflexivity. }
  assert (EN : Network.carbon_grams (network m1)
               == Network.carbon_grams (network m2)).
  { rewrite N1, N2, Hb. reflexivity. }
  assert (ET : Total.carbon_grams (total m1) == Total.carbon_grams (total m2)).
  { rewrite T1, T2, EC, EN. reflexivity. }
  split; [exact R1|]. split; [exact R2|]. split; [exact U1|].
  split; [rewrite P1; reflexivity|].
  split; [intros Hs; rewrite P1, U1, Hs; reflexivity|].
  unfold same_metrics. repeat split; try assumption.
  - rewrite U1, U2. exact Ha.
  - rewrite P1, P2, Hb'. reflexivity.
  - rewrite G1, G2, Hb. reflexivity.
  - rewrite MP1, MP2. exact Hp.
  - rewrite MU1, MU2, Hu. reflexivity.
  - rewrite MT1, MT2, Ht. reflexivity.
  - rewrite K1, K2, ET. reflexivity.
  - rewrite RH1, RH2. exact Hr.
  - rewrite TE1, TE2. exact EE.
Qed.

Lemma C7_power_from_own_sample_witness :
  exists m s',
    get_carbon_metrics ∅ Samples.bursty_hour = (Ok m, s') /\
    Cpu.power_watts (cpu m) == 50 + 65 * (100 / 100).
Proof.
  destruct (C7_power_from_own_sample ∅ ∅ 0 0
              Samples.bursty_hour Samples.bursty_hour)
    as (m & s' & _ & _ & Hm & _ & _ & Hp & _).
  - reflexivity.
  - reflexivity.
  - reflexivity.
  - repeat split; reflexivity.
  - exists m, s'. split; [exact Hm | exact Hp].
Defined.

(** C10. A snapshot dict without the ['total_bytes'] key does not make
    [get_carbon_metrics] fail: the call returns metrics with 0 GB
    transferred, 0 g of network carbon and a total carbon equal to the cpu
    carbon. *)
Theorem C10_missing_total_bytes network_stats s :
  network_stats !! "total_bytes" = None ->
  exists m s',
    get_carbon_metrics network_stats s = (Ok m, s') /\
    Network.total_gb (network m) == 0 /\
    Network.carbon_grams (network m) == 0 /\
    Total.carbon_grams (total m) == Cpu.carbon_grams (cpu m).
Proof.
  intros Hkey.
  destruct (get_carbon_metrics_run network_stats 0 s
              (total_bytes_of_absent _ Hkey))
    as (m & s' & Hm & _ & _ & _ & _ & _ & Hg & Hn & Ht & _).
  exists m, s'. split; [exact Hm|].
  assert (En : Network.carbon_grams (network m) == 0)
    by (rewrite Hn; reflexivity).
  repeat split.
  - rewrite Hg. reflexivity.
  - exact En.
  - rewrite Ht, En. ring.
Qed.

Lemma C10_missing_total_bytes_witness :
  exists m s',
    get_carbon_metrics (<["bytes_sent" := VNum 7]> ∅) Samples.idle_hour
      = (Ok m, s') /\
    Network.carbon_grams (network m) == 0.
Proof.
  destruct (C10_missing_total_bytes (<["bytes_sent" := VNum 7]> ∅)
              Samples.idle_hour)
    as (m & s' & Hm & _ & Hn & _).
  - reflexivity.
  - exists m, s'. split; [exact Hm | exact Hn].
Defined.

Lemma savings_reduce_cpu self :
  savings self !! "reduce_cpu" =
    Some {| name := "Reduce CPU Usage";
            description := "Limit background processes and CPU-intensive tasks";
            potential_reduction_percent := 30;
            estimated_savings_grams := total_carbon self * 0.30 |}.
Proof. unfold savings. apply lookup_insert_eq. Qed.

Lemma savings_optimize_network self :
  savings self !! "optimize_network" =
    Some {| name := "Optimize Network Traffic";
            description :=
              "Compress data, cache content, reduce unnecessary requests";
            potential_reduction_percent := 25;
            estimated_savings_grams := total_carbon self * 0.25 |}.
Proof.
  unfold savings. rewrite lookup_insert_ne by discriminate.
  apply lookup_insert_eq.
Qed.

Lemma savings_power_management self :
  savings self !! "power_management" =
    Some {| name := "Enable Power Management";
            description :=
              "Use power-saving modes, reduce screen brightness, sleep idle processes";
            potential_reduction_percent := 40;
            estimated_savings_grams := total_carbon self * 0.40 |}.
Proof.
  unfold savings. do 2 (rewrite lookup_insert_ne by discriminate).
  apply lookup_insert_eq.
Qed.

Lemma savings_unknown self kind :
  kind <> "reduce_cpu" -> kind <> "optimize_network" ->
  kind <> "power_management" ->
  savings self !! kind = None.
Proof.
  intros H1 H2 H3. unfold savings.
  do 3 (rewrite lookup_insert_ne by congruence).
  apply lookup_empty.
Qed.

(** The savings of an estimate are its percentage of the carbon total. *)
Definition percent_of_total (self : CarbonCalculator) (e : SavingsEstimate)
  : Prop :=
  estimated_savings_grams e ==
    total_carbon self * inject_Z (potential_reduction_percent e) / 100.

(** C5. Whatever the last computed total carbon, [estimate_savings]
    returns 30 percent for 'reduce_cpu', 25 for 'optimize_network' and 40
    for 'power_management', each with savings equal to the total times
    the percentage over 100; a kind outside these three gets the
    'reduce_cpu' entry. *)
Theorem C5_estimate_savings_table self kind :
  kind <> "reduce_cpu" -> kind <> "optimize_network" ->
  kind <> "power_management" ->
  (exists e, estimate_savings self "reduce_cpu" = Ok e /\
             potential_reduction_percent e = 30%Z /\ percent_of_total self e) /\
  (exists e, estimate_savings self "optimize_network" = Ok e /\
             potential_reduction_percent e = 25%Z /\ percent_of_total self e) /\
  (exists e, estimate_savings self "power_management" = Ok e /\
             potential_reduction_percent e = 40%Z /\ percent_of_total self e) /\
  estimate_savings self kind = estimate_savings self "reduce_cpu".
Proof.
  intros H1 H2 H3. unfold estimate_savings, dict_item, percent_of_total.
  rewrite (savings_unknown self kind H1 H2 H3).
  rewrite savings_reduce_cpu, savings_optimize_network,
    savings_power_management.
  repeat split.
  - eexists. split; [reflexivity|]. split; [reflexivity|]. cbn. field.
  - eexists. split; [reflexivity|]. split; [reflexivity|]. cbn. field.
  - eexists. split; [reflexivity|]. split; [reflexivity|]. cbn. field.
Qed.

Lemma C5_estimate_savings_table_witness :
  estimate_savings (self Samples.idle_hour) "plant_trees" =
  estimate_savings (self Samples.idle_hour) "reduce_cpu".
Proof.
  apply (C5_estimate_savings_table (self Samples.idle_hour) "plant_trees");
    discriminate.
Defined.

End CalculatorFacts.

(** ** The activity monitor *)

Module MonitorFacts.
Import Monitor.
Local Open Scope N_scope.

(** The state [get_stats] leaves behind and the snapshot it builds. *)
Definition refreshed (o : NetOS) (s : BPFNetworkMonitor) : BPFNetworkMonitor :=
  set_active_connections (N.of_nat (length (net_connections o)))
    (if not_bpf s then mirror (net_io_counters o) s else s).

Lemma get_stats_run o s :
  exists st,
    get_stats o s = (Ok st, refreshed o s) /\
    Stats.packet_count st = packet_count (refreshed o s) /\
    Stats.bytes_sent st = bytes_sent (refreshed o s) /\
    Stats.bytes_received st = bytes_received (refreshed o s) /\
    Stats.total_bytes st =
      bytes_sent (refreshed o s) + bytes_received (refreshed o s) /\
    Stats.active_connections st = N.of_nat (length (net_connections o)) /\
    Stats.process_stats st = process_stats s.
Proof.
  unfold get_stats, refreshed, bind, get.
  destruct (not_bpf s); eexists; (split; [reflexivity|]);
    cbn; repeat split; reflexivity.
Qed.

Lemma refreshed_bpf o s : bpf (refreshed o s) = bpf s.
Proof. unfold refreshed. now destruct (not_bpf s). Qed.

Lemma refreshed_polling o s :
  not_bpf s = true ->
  packet_count (refreshed o s) =
    Netio.packets_sent (net_io_counters o) +
    Netio.packets_recv (net_io_counters o) /\
  bytes_sent (refreshed o s) = Netio.bytes_sent (net_io_counters o) /\
  bytes_received (refreshed o s) = Netio.bytes_recv (net_io_counters o).
Proof. unfold refreshed. intros ->. cbn. auto. Qed.

Lemma refreshed_probe o s :
  not_bpf s = false ->
  packet_count (refreshed o s) = packet_count s /\
  bytes_sent (refreshed o s) = bytes_sent s /\
  bytes_received (refreshed o s) = bytes_received s.
Proof. unfold refreshed. intros ->. cbn. auto. Qed.

Lemma refreshed_not_bpf o s : not_bpf (refreshed o s) = not_bpf s.
Proof. unfold not_bpf, bpf_truth. now rewrite refreshed_bpf. Qed.

(** C2. In both modes the snapshot [get_stats] returns has
    [total_bytes] equal to [bytes_sent + bytes_received]. *)
Theorem C2_total_bytes_is_sum o s :
  exists st s',
    get_stats o s = (Ok st, s') /\
    Stats.total_bytes st = Stats.bytes_sent st + Stats.bytes_received st.
Proof.
  destruct (get_stats_run o s) as (st & Hrun & _ & Hs & Hr & Ht & _).
  exists st, (refreshed o s). split; [exact Hrun|]. now rewrite Ht, Hs, Hr.
Qed.

(** *** Starting the monitor *)

Lemma start_monitoring_returns k s :
  exists r s', start_monitoring k s = (Ok r, s').
Proof.
  unfold start_monitoring, try_except.
  match goal with |- context [match ?m s with _ => _ end] =>
    destruct (m s) as [[r | e] s'] end.
  - eauto.
  - cbn. eauto.
Qed.

(** Every step of the [try] block goes through. *)
Definition initialization_ok (k : Kernel) : bool :=
  bpf_compiles k && kprobe_attaches k "tcp_sendmsg"
  && kprobe_attaches k "tcp_recvmsg" && kprobe_attaches k "udp_sendmsg"
  && thread_starts k.

(** [start_monitoring] returns whether every step went through; it opens
    no table, so a monitor whose [self.bpf] was false is left with a
    [self.bpf] that is false, whether a probe object was stored or not. *)
Lemma start_monitoring_effect k s :
  exists s',
    start_monitoring k s = (Ok (initialization_ok k), s') /\
    (not_bpf s = true -> not_bpf s' = true) /\
    (bpf_compiles k = true -> not_bpf s' = true).
Proof.
  unfold initialization_ok, start_monitoring, try_except, bind,
    new_BPF, attach_kprobe, start_thread, modify, ret, raise.
  destruct (bpf_compiles k); cbn.
  2: { exists s. repeat split; [auto | discriminate]. }
  destruct (kprobe_attaches k "tcp_sendmsg"); cbn.
  2: { eexists. split; [reflexivity|]. split; reflexivity. }
  destruct (kprobe_attaches k "tcp_recvmsg"); cbn.
  2: { eexists. split; [reflexivity|]. split; reflexivity. }
  destruct (kprobe_attaches k "udp_sendmsg"); cbn.
  2: { eexists. split; [reflexivity|]. split; reflexivity. }
  destruct (thread_starts k); cbn;
    eexists; (split; [reflexivity|]); split; reflexivity.
Qed.

(** Without the toolchain the probe object is never stored, and the next
    [get_stats] mirrors the OS counters. *)
Lemma start_monitoring_no_toolchain k o :
  bpf_compiles k = false ->
  exists s1 st s2,
    start_monitoring k init = (Ok false, s1) /\
    get_stats o s1 = (Ok st, s2) /\
    Stats.packet_count st =
      Netio.packets_sent (net_io_counters o) +
      Netio.packets_recv (net_io_counters o) /\
    Stats.bytes_sent st = Netio.bytes_sent (net_io_counters o) /\
    Stats.bytes_received st = Netio.bytes_recv (net_io_counters o).
Proof.
  intros Hk.
  exists init.
  destruct (get_stats_run o init) as (st & Hrun & Hp & Hs & Hr & _).
  exists st, (refreshed o init).
  split.
  - unfold start_monitoring, try_except, bind, new_BPF. rewrite Hk. reflexivity.
  - split; [exact Hrun|].
    destruct (refreshed_polling o init eq_refl) as (Ep & Es & Er).
    now rewrite Hp, Hs, Hr, Ep, Es, Er.
Qed.

(** C4. Whenever some step of the initialization raises (the probe
    program does not load, a kprobe does not attach, the thread does not
    start), [start_monitoring] returns [False] and does not raise, and the
    next [get_stats] returns a full snapshot whose packet and byte
    counters are the OS counters of that moment.  This holds also when a
    probe object was stored before the failure: it has no table opened
    and tests false in [not self.bpf]. *)
Theorem C4_failed_start_falls_back_to_os_counters k s o :
  initialization_ok k = false ->
  not_bpf s = true ->
  exists s1 st s2,
    start_monitoring k s = (Ok false, s1) /\
    get_stats o s1 = (Ok st, s2) /\
    Stats.packet_count st =
      Netio.packets_sent (net_io_counters o) +
      Netio.packets_recv (net_io_counters o) /\
    Stats.bytes_sent st = Netio.bytes_sent (net_io_counters o) /\
    Stats.bytes_received st = Netio.bytes_recv (net_io_counters o) /\
    Stats.total_bytes st =
      Netio.bytes_sent (net_io_counters o) + Netio.bytes_recv (net_io_counters o) /\
    Stats.active_connections st = N.of_nat (length (net_connections o)).
Proof.
  intros Hk Hs.
  destruct (start_monitoring_effect k s) as (s1 & Hrun & Hkeep & _).
  rewrite Hk in Hrun.
  destruct (get_stats_run o s1) as (st & Hg & Gp & Gs & Gr & Gt & Ga & _).
  destruct (refreshed_polling o s1 (Hkeep Hs)) as (Ep & Es & Er).
  exists s1, st, (refreshed o s1).
  split; [exact Hrun|]. split; [exact Hg|].
  rewrite Gp, Gs, Gr, Gt, Ga, Ep, Es, Er. repeat split; reflexivity.
Qed.

Lemma C4_failed_start_falls_back_to_os_counters_witness :
  exists s1 st s2,
    start_monitoring Samples.no_kprobes init = (Ok false, s1) /\
    get_stats Samples.busy_net s1 = (Ok st, s2) /\
    Stats.packet_count st = 27 /\
    Stats.bytes_sent st = 7000 /\
    Stats.bytes_received st = 9000.
Proof.
  destruct (C4_failed_start_falls_back_to_os_counters
              Samples.no_kprobes init Samples.busy_net)
    as (s1 & st & s2 & Hr & Hg & Hp & Hs & Hb & _).
  - reflexivity.
  - reflexivity.
  - exists s1, st, s2. split; [exact Hr|]. split; [exact Hg|].
    split; [exact Hp|]. split; [exact Hs | exact Hb].
Defined.

(** *** Event ingestion *)

Definition is_send (event : Event.t) : Prop :=
  Event.event_type event = 1 \/ Event.event_type event = 3.

Lemma handle_event_send event s :
  is_send event ->
  handle_event event s =
    {| packet_count := packet_count s + 1;
       bytes_sent := bytes_sent s + Event.bytes event;
       bytes_received := bytes_received s;
       active_connections := active_connections s;
       process_stats :=
         <[Event.comm event :=
             {| Bucket.packets :=
                  Bucket.packets (bucket_of (process_stats s) (Event.comm event)) + 1;
                Bucket.bytes :=
                  Bucket.bytes (bucket_of (process_stats s) (Event.comm event))
                  + Event.bytes event |}]> (process_stats s);
       running := running s; bpf := bpf s;
       monitor_thread := monitor_thread s |}.
Proof.
  unfold is_send, handle_event. intros [-> | ->]; reflexivity.
Qed.

Lemma handle_event_receive event s :
  Event.event_type event = 2 ->
  handle_event event s =
    {| packet_count := packet_count s + 1;
       bytes_sent := bytes_sent s;
       bytes_received := bytes_received s + 1024;
       active_connections := active_connections s;
       process_stats := process_stats s;
       running := running s; bpf := bpf s;
       monitor_thread := monitor_thread s |}.
Proof. unfold handle_event. intros ->. reflexivity. Qed.

Lemma handle_event_packet_count event s :
  packet_count (handle_event event s) = packet_count s + 1.
Proof.
  unfold handle_event.
  destruct (_ || _); [reflexivity|]. destruct (_ =? 2); reflexivity.
Qed.

(** C8. Every event adds exactly one to [packet_count].  A send event
    (type 1 or 3) adds its byte size to [bytes_sent] and adds one packet
    and that byte size to the bucket of the emitting process, leaving the
    other buckets alone.  A receive event (type 2) adds exactly 1024 to
    [bytes_received] and changes no bucket. *)
Theorem C8_handle_event_accounting event s :
  packet_count (handle_event event s) = packet_count s + 1 /\
  (is_send event ->
   bytes_sent (handle_event event s) = bytes_sent s + Event.bytes event /\
   bytes_received (handle_event event s) = bytes_received s /\
   bucket_of (process_stats (handle_event event s)) (Event.comm event) =
     {| Bucket.packets :=
          Bucket.packets (bucket_of (process_stats s) (Event.comm event)) + 1;
        Bucket.bytes :=
          Bucket.bytes (bucket_of (process_stats s) (Event.comm event))
          + Event.bytes event |} /\
   (forall comm : string, comm <> Event.comm event ->
      process_stats (handle_event event s) !! comm = process_stats s !! comm)) /\
  (Event.event_type event = 2 ->
   bytes_received (handle_event event s) = bytes_received s + 1024 /\
   bytes_sent (handle_event event s) = bytes_sent s /\
   process_stats (handle_event event s) = process_stats s).
Proof.
  split; [apply handle_event_packet_count|]. split.
  - intros Hs. rewrite (handle_event_send _ _ Hs). cbn.
    repeat split.
    + unfold bucket_of at 1. now rewrite lookup_insert_eq.
    + intros comm Hne. now rewrite lookup_insert_ne.
  - intros Hr. rewrite (handle_event_receive _ _ Hr). cbn. auto.
Qed.

Lemma C8_handle_event_accounting_witness :
  bytes_sent (handle_event Samples.tcp_send init) = 1500 /\
  bucket_of (process_stats (handle_event Samples.tcp_send init)) "curl" =
    {| Bucket.packets := 1; Bucket.bytes := 1500 |} /\
  bytes_received (handle_event Samples.tcp_recv init) = 1024.
Proof.
  destruct (C8_handle_event_accounting Samples.tcp_send init)
    as (_ & Hsend & _).
  destruct (C8_handle_event_accounting Samples.tcp_recv init)
    as (_ & _ & Hrecv).
  destruct Hsend as (Hs & _ & Hb & _); [left; reflexivity|].
  destruct Hrecv as (Hr & _); [reflexivity|].
  split; [exact Hs|]. split; [exact Hb | exact Hr].
Defined.

(** *** Monotone counters *)

Definition counters_le (s s' : BPFNetworkMonitor) : Prop :=
  packet_count s <= packet_count s' /\
  bytes_sent s <= bytes_sent s' /\
  bytes_received s <= bytes_received s'.

Lemma counters_le_refl s : counters_le s s.
Proof. unfold counters_le. lia. Qed.

Lemma counters_le_trans s1 s2 s3 :
  counters_le s1 s2 -> counters_le s2 s3 -> counters_le s1 s3.
Proof. unfold counters_le. lia. Qed.

Lemma handle_event_grows event s : counters_le s (handle_event event s).
Proof.
  unfold counters_le, handle_event.
  destruct (_ || _); [cbn; lia|]. destruct (_ =? 2); cbn; lia.
Qed.

Lemma handle_event_bpf event s : bpf (handle_event event s) = bpf s.
Proof.
  unfold handle_event.
  destruct (_ || _); [reflexivity|]. destruct (_ =? 2); reflexivity.
Qed.

Lemma perf_buffer_poll_grows batch s :
  counters_le s (perf_buffer_poll batch s) /\
  bpf (perf_buffer_poll batch s) = bpf s.
Proof.
  unfold perf_buffer_poll. revert s.
  induction batch as [| e batch IH]; intros s; cbn.
  - split; [apply counters_le_refl | reflexivity].
  - destruct (IH (handle_event e s)) as [Hle Hb]. split.
    + eapply counters_le_trans; [apply handle_event_grows | exact Hle].
    + now rewrite Hb, handle_event_bpf.
Qed.

Lemma open_table_effect name s :
  bpf_truth s = true ->
  counters_le s (open_table name s) /\
  bpf_truth (open_table name s) = true.
Proof.
  unfold open_table, bpf_truth. destruct (bpf s) as [b |] eqn:Hb;
    [| discriminate].
  intros Ht. destruct (bool_decide (name ∈ tables b)).
  - rewrite Hb. split; [apply counters_le_refl | exact Ht].
  - cbn. split; [unfold counters_le; cbn; lia|].
    destruct (tables b); [discriminate | reflexivity].
Qed.

Lemma process_events_grows polls s :
  counters_le s (_process_events polls s) /\
  not_bpf (_process_events polls s) = not_bpf s.
Proof.
  unfold _process_events, not_bpf. destruct (bpf_truth s) eqn:Ht.
  - assert (H : forall s0 : BPFNetworkMonitor,
        counters_le s0
          (foldl (fun s batch => if running s then perf_buffer_poll batch s else s)
             s0 polls) /\
        bpf (foldl (fun s batch => if running s then perf_buffer_poll batch s else s)
               s0 polls) = bpf s0).
    { induction polls as [| batch polls IH]; intros s0; cbn.
      - split; [apply counters_le_refl | reflexivity].
      - destruct (running s0).
        + destruct (perf_buffer_poll_grows batch s0) as [Hle Hb0].
          destruct (IH (perf_buffer_poll batch s0)) as [Hle' Hb'].
          split; [eapply counters_le_trans; eassumption | congruence].
        + apply IH. }
    destruct (H (open_table "events" s)) as [Hle Hb'].
    destruct (open_table_effect "events" s Ht) as [Ho Hto].
    split; [eapply counters_le_trans; eassumption|].
    unfold bpf_truth in *. rewrite Hb'. now rewrite Hto.
  - split; [apply counters_le_refl | now rewrite Ht].
Qed.

(** With a [self.bpf] that is false the thread body does nothing. *)
Lemma process_events_idle polls s :
  not_bpf s = true -> _process_events polls s = s.
Proof.
  unfold _process_events, not_bpf. now destruct (bpf_truth s).
Qed.

(** The OS counters read at the second call have not gone back since the
    first. *)
Definition cumulative (o1 o2 : NetOS) : Prop :=
  Netio.packets_sent (net_io_counters o1) + Netio.packets_recv (net_io_counters o1)
    <= Netio.packets_sent (net_io_counters o2)
       + Netio.packets_recv (net_io_counters o2) /\
  Netio.bytes_sent (net_io_counters o1) <= Netio.bytes_sent (net_io_counters o2) /\
  Netio.bytes_recv (net_io_counters o1) <= Netio.bytes_recv (net_io_counters o2).

(** The packet and byte counters of a snapshot are those the OS shows. *)
Definition mirrors (st : Stats.t) (o : NetOS) : Prop :=
  Stats.packet_count st =
    Netio.packets_sent (net_io_counters o) + Netio.packets_recv (net_io_counters o) /\
  Stats.bytes_sent st = Netio.bytes_sent (net_io_counters o) /\
  Stats.bytes_received st = Netio.bytes_recv (net_io_counters o).

(** C6, as stated, fails in polling mode.  The OS totals are sums over
    the interfaces present and go back when one disappears: with 7600
    bytes sent at the first call and 7000 at the second, the returned
    [bytes_sent] decreases. *)
Lemma C6_polled_counters_go_back :
  exists st1 s1 st2 s2,
    get_stats Samples.busier_net init = (Ok st1, s1) /\
    get_stats Samples.busy_net (_process_events [] s1) = (Ok st2, s2) /\
    Stats.bytes_sent st1 = 7600 /\
    Stats.bytes_sent st2 = 7000 /\
    ~ Stats.bytes_sent st1 <= Stats.bytes_sent st2.
Proof.
  eexists. eexists. eexists. eexists.
  split; [reflexivity|]. split; [reflexivity|]. cbn.
  split; [reflexivity|]. split; [reflexivity|]. lia.
Qed.

(** C6, amended.  Between two successive [get_stats] calls, with whatever
    the ingestion thread processed in between: while [self.bpf] is true
    the events only add, and [packet_count], [bytes_sent] and
    [bytes_received] do not decrease; while it is false (no probe object,
    or one without an opened table) each call returns the OS counters of
    its moment, so the returned values do not decrease exactly when
    those OS counters did not go back between the two reads. *)
Theorem C6_counters_follow_their_source o1 o2 polls s :
  exists st1 s1 st2 s2,
    get_stats o1 s = (Ok st1, s1) /\
    get_stats o2 (_process_events polls s1) = (Ok st2, s2) /\
    (not_bpf s = false ->
     Stats.packet_count st1 <= Stats.packet_count st2 /\
     Stats.bytes_sent st1 <= Stats.bytes_sent st2 /\
     Stats.bytes_received st1 <= Stats.bytes_received st2) /\
    (not_bpf s = true ->
     mirrors st1 o1 /\ mirrors st2 o2 /\
     (cumulative o1 o2 <->
      Stats.packet_count st1 <= Stats.packet_count st2 /\
      Stats.bytes_sent st1 <= Stats.bytes_sent st2 /\
      Stats.bytes_received st1 <= Stats.bytes_received st2)).
Proof.
  destruct (get_stats_run o1 s) as (st1 & R1 & P1 & S1 & B1 & _).
  set (s1 := refreshed o1 s) in *.
  destruct (get_stats_run o2 (_process_events polls s1))
    as (st2 & R2 & P2 & S2 & B2 & _).
  exists st1, s1, st2, (refreshed o2 (_process_events polls s1)).
  split; [exact R1|]. split; [exact R2|].
  destruct (process_events_grows polls s1) as [(Hp & Hs & Hr) Hn].
  assert (Hn1 : not_bpf s1 = not_bpf s) by apply refreshed_not_bpf.
  unfold mirrors, cumulative. rewrite P1, S1, B1, P2, S2, B2.
  split; intros Hmode.
  - destruct (refreshed_probe o2 (_process_events polls s1)) as (E1 & E2 & E3);
      [congruence|].
    rewrite E1, E2, E3. auto.
  - destruct (refreshed_polling o2 (_process_events polls s1)) as (E1 & E2 & E3);
      [congruence|].
    destruct (refreshed_polling o1 s Hmode) as (F1 & F2 & F3).
    fold s1 in F1, F2, F3.
    rewrite E1, E2, E3, F1, F2, F3. tauto.
Qed.

Lemma C6_counters_follow_their_source_witness :
  (exists st1 s1 st2 s2,
     get_stats Samples.busy_net Samples.open_probe = (Ok st1, s1) /\
     get_stats Samples.busier_net
       (_process_events [[Samples.tcp_send]] s1) = (Ok st2, s2) /\
     Stats.bytes_sent st1 <= Stats.bytes_sent st2) /\
  (exists st1 s1 st2 s2,
     get_stats Samples.busy_net init = (Ok st1, s1) /\
     get_stats Samples.busier_net (_process_events [] s1) = (Ok st2, s2) /\
     mirrors st1 Samples.busy_net /\ mirrors st2 Samples.busier_net).
Proof.
  split.
  - destruct (C6_counters_follow_their_source Samples.busy_net
                Samples.busier_net [[Samples.tcp_send]] Samples.open_probe)
      as (st1 & s1 & st2 & s2 & R1 & R2 & Hprobe & _).
    destruct (Hprobe eq_refl) as (_ & Hs & _).
    exists st1, s1, st2, s2. split; [exact R1|]. split; [exact R2 | exact Hs].
  - destruct (C6_counters_follow_their_source Samples.busy_net
                Samples.busier_net [] init)
      as (st1 & s1 & st2 & s2 & R1 & R2 & _ & Hpoll).
    destruct (Hpoll eq_refl) as (M1 & M2 & _).
    exists st1, s1, st2, s2. split; [exact R1|]. split; [exact R2|].
    split; [exact M1 | exact M2].
Defined.

(** *** The process list *)

Section ProcessList.
Local Open Scope nat_scope.

(** The processes whose attributes could be read, in enumeration order. *)
Definition readable (procs : list (outcome Pinfo.t)) : list Pinfo.t :=
  omap (fun r => match r with Ok p => Some p | Raise _ => None end) procs.

(** A read succeeds, or fails because the process vanished or is
    inaccessible. *)
Definition skippable (r : outcome Pinfo.t) : Prop :=
  match r with
  | Ok _ => True
  | Raise e => vanished_or_denied e = true
  end.

(** The ['cpu'] value of an entry is a number. *)
Definition numeric (p : Proc.t) : Prop := is_Some (Proc.cpu p).

(** [a] comes before [b] in descending order of CPU usage. *)
Definition by_cpu_desc (a b : Proc.t) : Prop :=
  match Proc.cpu a, Proc.cpu b with
  | Some x, Some y => (y <= x)%Q
  | _, _ => False
  end.

Lemma enumerate_skips procs acc :
  Forall skippable procs ->
  enumerate procs acc = Ok (acc ++ (entry <$> readable procs)).
Proof.
  intros H. revert acc.
  induction H as [| r procs Hr _ IH]; intros acc; cbn.
  - now rewrite app_nil_r.
  - destruct r as [pinfo | e]; cbn in *.
    + rewrite IH. now rewrite <- app_assoc.
    + rewrite Hr. apply IH.
Qed.

Lemma readable_all_ok l : readable (Ok <$> l) = l.
Proof.
  unfold readable. induction l as [| p l IH]; cbn; [reflexivity|].
  now f_equal.
Qed.

Lemma by_cpu_desc_trans a b c :
  by_cpu_desc a b -> by_cpu_desc b c -> by_cpu_desc a c.
Proof.
  unfold by_cpu_desc.
  destruct (Proc.cpu a), (Proc.cpu b), (Proc.cpu c); try tauto.
  intros H1 H2. eapply Qle_trans; eassumption.
Qed.

(** On numbers the insertion returns, keeps the elements and keeps the
    order. *)
Lemma insert_desc_numeric x l :
  numeric x -> Forall numeric l ->
  exists r,
    insert_desc x l = Ok r /\ r ≡ₚ x :: l /\
    (StronglySorted by_cpu_desc l -> StronglySorted by_cpu_desc r).
Proof.
  intros [cx Hx] Hl.
  induction Hl as [| y l [cy Hy] Hl IH]; cbn.
  - eexists. split; [reflexivity|]. split; [reflexivity|].
    intros _. repeat constructor.
  - rewrite Hx, Hy. cbn.
    destruct (Qle_bool cy cx) eqn:Hc; cbn.
    + eexists. split; [reflexivity|]. split; [reflexivity|].
      intros Hs. apply Qle_bool_iff in Hc.
      constructor; [exact Hs|].
      assert (Hxy : by_cpu_desc x y) by (unfold by_cpu_desc; now rewrite Hx, Hy).
      constructor; [exact Hxy|].
      apply StronglySorted_inv in Hs as [_ Hall].
      eapply Forall_impl; [exact Hall|].
      intros z Hz. eapply by_cpu_desc_trans; eassumption.
    + destruct IH as (r & -> & Hp & Hsorted).
      eexists. split; [reflexivity|].
      split; [rewrite Hp; apply perm_swap|].
      intros Hs. apply StronglySorted_inv in Hs as [Hs Hall].
      constructor; [now apply Hsorted|].
      rewrite Hp. constructor; [|exact Hall].
      unfold by_cpu_desc. rewrite Hx, Hy.
      apply Qlt_le_weak, Qnot_le_lt. intros Hle.
      apply Qle_bool_iff in Hle. congruence.
Qed.

Lemma sorted_desc_numeric l :
  Forall numeric l ->
  exists r,
    sorted_desc l = Ok r /\ r ≡ₚ l /\ StronglySorted by_cpu_desc r.
Proof.
  unfold sorted_desc. induction 1 as [| x l Hx Hl IH]; cbn.
  - eexists. split; [reflexivity|]. split; [reflexivity | constructor].
  - destruct IH as (r & -> & Hp & Hs).
    destruct (insert_desc_numeric x r Hx) as (r' & Hr' & Hp' & Hs').
    { now rewrite Hp. }
    exists r'. split; [exact Hr'|].
    split; [now rewrite Hp', Hp | now apply Hs'].
Qed.

(** A comparison with [None] ends the insertion. *)
Lemma insert_desc_none x y l :
  Proc.cpu x = None \/ Proc.cpu y = None ->
  insert_desc x (y :: l) = Raise TypeError.
Proof.
  cbn. intros [-> | ->]; [reflexivity|]. now destruct (Proc.cpu x).
Qed.

(** The sort returns a rearrangement when the keys are all numbers or
    there is at most one element, and raises [TypeError] otherwise. *)
Lemma sorted_desc_cases l :
  ((Forall numeric l \/ length l <= 1) /\
   exists r, sorted_desc l = Ok r /\ r ≡ₚ l)
  \/
  (Exists (fun p => Proc.cpu p = None) l /\ 2 <= length l /\
   sorted_desc l = Raise TypeError).
Proof.
  induction l as [| x l IH].
  - left. split; [left; constructor|]. exists []. split; reflexivity.
  - destruct IH as [[Hshape (r & Hr & Hp)] | (Hex & Hlen & Hr)].
    2: { right. split; [now apply Exists_cons_tl|].
         split; [cbn; lia|]. unfold sorted_desc in *. cbn. now rewrite Hr. }
    unfold sorted_desc in *. cbn [foldr]. rewrite Hr.
    destruct l as [| z l].
    { apply Permutation_nil_r in Hp as ->. left.
      split; [right; cbn; lia|]. exists [x]. split; reflexivity. }
    destruct r as [| y r]; [now apply Permutation_nil_cons in Hp|].
    destruct (Proc.cpu x) as [cx |] eqn:Hx.
    + destruct Hshape as [Hnum | Hone].
      * destruct (insert_desc_numeric x (y :: r)) as (r' & Hr' & Hp' & _).
        { now exists cx. }
        { now rewrite Hp. }
        left. split.
        -- left. constructor; [now exists cx | exact Hnum].
        -- exists r'. split; [exact Hr'|]. now rewrite Hp', Hp.
      * assert (l = []) as -> by (destruct l; [reflexivity | cbn in Hone; lia]).
        symmetry in Hp. apply Permutation_length_1_inv in Hp.
        injection Hp as -> ->.
        destruct (Proc.cpu z) as [cz |] eqn:Hz.
        -- destruct (insert_desc_numeric x [z]) as (r' & Hr' & Hp' & _).
           { now exists cx. }
           { constructor; [now exists cz | constructor]. }
           left. split.
           ++ left. repeat constructor; [now exists cx | now exists cz].
           ++ exists r'. split; [exact Hr' | exact Hp'].
        -- right. split; [apply Exists_cons_tl; now constructor|].
           split; [cbn; lia|]. apply insert_desc_none. now right.
    + right. split; [now constructor|]. split; [cbn; lia|].
      apply insert_desc_none. now left.
Qed.

Lemma StronglySorted_take {A} (R : A -> A -> Prop) n l :
  StronglySorted R l -> StronglySorted R (take n l).
Proof.
  intros H. revert n.
  induction H as [| x l Hl IH Hx]; intros [| n]; cbn; try constructor.
  - apply IH.
  - now apply Forall_take.
Qed.

(** C9, at the failing input.  [psutil.process_iter] hands a process it
    may not read over with [None] under ['cpu_percent'] instead of
    raising, so the [except] clause does not skip it: next to a readable
    process the sort compares [None] with a number and [TypeError]
    reaches the caller; alone, the process is returned in the list. *)
Theorem C9_inaccessible_process_is_not_skipped :
  get_process_list Samples.guarded_table = Raise TypeError /\
  get_process_list [Ok Samples.inaccessible] = Ok [entry Samples.inaccessible].
Proof. split; reflexivity. Qed.

(** Any other exception raised by a read is not handled. *)
Lemma get_process_list_propagates procs1 procs2 e :
  Forall skippable procs1 ->
  vanished_or_denied e = false ->
  get_process_list (procs1 ++ Raise e :: procs2) = Raise e.
Proof.
  intros H He. unfold get_process_list.
  assert (G : forall acc, enumerate (procs1 ++ Raise e :: procs2) acc = Raise e).
  { induction H as [| r procs Hr _ IH]; intros acc; cbn.
    - now rewrite He.
    - destruct r as [pinfo | e']; cbn in *; [apply IH|].
      rewrite Hr. apply IH. }
  now rewrite G.
Qed.

End ProcessList.

End MonitorFacts.

(** ** The history buffer *)

Module HistoryFacts.
Import App.
Local Open Scope nat_scope.

(** Appending to a window of the last 100 and trimming gives the window of
    the extended sequence. *)
Lemma trim_snoc {A} (v : list A) (x : A) :
  trim (slice_last 100 v ++ [x]) = slice_last 100 (v ++ [x]).
Proof.
  unfold trim, slice_last.
  rewrite !length_app, length_drop. cbn [length].
  destruct (Nat.ltb_spec 100 (length v - (length v - 100) + 1)) as [Hlt | Hge].
  - rewrite drop_app_le by (rewrite length_drop; lia).
    rewrite drop_drop.
    rewrite drop_app_le by lia.
    do 2 f_equal. lia.
  - replace (length v - 100) with 0 by lia.
    replace (length v + 1 - 100) with 0 by lia.
    reflexivity.
Qed.

Lemma slice_last_length {A} (l : list A) :
  length (slice_last 100 l) = Nat.min (length l) 100.
Proof. unfold slice_last. rewrite length_drop. lia. Qed.

(** The history that holds the last 100 of the points [ps]. *)
Definition held (ps : list Point) : History :=
  {| timestamps := slice_last 100 (timestamp <$> ps);
     cpu_usage := slice_last 100 (cpuUsage <$> ps);
     network_bytes := slice_last 100 (networkMB <$> ps);
     carbon_emissions := slice_last 100 (carbonGrams <$> ps);
     energy_consumption := slice_last 100 (energyWh <$> ps) |}.

Lemma held_nil : held [] = historical_data0.
Proof. reflexivity. Qed.

Lemma store_held p ps : store p (held ps) = held (ps ++ [p]).
Proof.
  unfold store, held. cbn [timestamps cpu_usage network_bytes
    carbon_emissions energy_consumption].
  rewrite !fmap_app. cbn [fmap list_fmap].
  now rewrite !trim_snoc.
Qed.

Lemma collect_data_held ticks sys ps :
  historical_data sys = held ps ->
  historical_data (collect_data ticks sys) = held (ps ++ appended ticks sys).
Proof.
  unfold collect_data. revert sys ps.
  induction ticks as [| t ticks IH]; intros sys ps Hh; cbn [foldl appended].
  - now rewrite app_nil_r.
  - destruct (measure t sys) as [[mon' calc'] [p |]] eqn:Hm.
    + rewrite (IH (collect_once t sys) (ps ++ [p])).
      * now rewrite <- app_assoc.
      * unfold collect_once. rewrite Hm. cbn. rewrite Hh. apply store_held.
    + apply IH. unfold collect_once. rewrite Hm. exact Hh.
Qed.

(** In this model a cycle never raises: [get_stats] returns a dict whose
    ['total_bytes'] is a number, so each cycle appends one point. *)
Lemma measure_appends t sys :
  exists mon' calc' p, measure t sys = (mon', calc', Some p).
Proof.
  unfold measure.
  destruct (MonitorFacts.get_stats_run (tick_net t) (monitor sys))
    as (st & -> & _).
  destruct (CalculatorFacts.get_carbon_metrics_run (stats_dict st)
              (NQ (Monitor.Stats.total_bytes st))
              {| Calculator.os := tick_os t;
                 Calculator.self := calculator sys |})
    as (m & s' & -> & _).
  - apply CalculatorFacts.total_bytes_of_present. unfold stats_dict.
    do 3 (rewrite lookup_insert_ne by discriminate).
    apply lookup_insert_eq.
  - eauto.
Qed.

Lemma appended_length ticks sys : length (appended ticks sys) = length ticks.
Proof.
  revert sys. induction ticks as [| t ticks IH]; intros sys; cbn; [reflexivity|].
  destruct (measure_appends t sys) as (mon' & calc' & p & ->).
  cbn. now rewrite IH.
Qed.

(** C3. After any number of collection cycles from start-up, every
    history series holds at most 100 entries: the last 100 of the values
    appended so far, in arrival order (all of them while there are at most
    100), the oldest dropped first. *)
Theorem C3_history_keeps_last_100 ticks m c :
  let h := historical_data (collect_data ticks (boot m c)) in
  let ps := appended ticks (boot m c) in
  length ps = length ticks /\
  timestamps h = drop (length ps - 100) (timestamp <$> ps) /\
  cpu_usage h = drop (length ps - 100) (cpuUsage <$> ps) /\
  network_bytes h = drop (length ps - 100) (networkMB <$> ps) /\
  carbon_emissions h = drop (length ps - 100) (carbonGrams <$> ps) /\
  energy_consumption h = drop (length ps - 100) (energyWh <$> ps) /\
  length (timestamps h) = Nat.min (length ticks) 100 /\
  length (cpu_usage h) = Nat.min (length ticks) 100 /\
  length (network_bytes h) = Nat.min (length ticks) 100 /\
  length (carbon_emissions h) = Nat.min (length ticks) 100 /\
  length (energy_consumption h) = Nat.min (length ticks) 100.
Proof.
  intros h ps.
  assert (Hh : h = held ps).
  { subst h ps. rewrite (collect_data_held ticks (boot m c) []); [reflexivity|].
    reflexivity. }
  assert (Hn : length ps = length ticks) by apply appended_length.
  rewrite Hh. unfold held, slice_last.
  cbn [timestamps cpu_usage network_bytes carbon_emissions energy_consumption].
  rewrite !length_drop, !length_fmap, Hn.
  repeat split; lia.
Qed.

End HistoryFacts.

(** ** More on the calculator *)

Module CalculatorMore.
Import Calculator CalculatorFacts.
Local Open Scope Q_scope.

(** Division by a numeral, turned into a multiplication for [lra]. *)
Ltac undiv :=
  unfold Qdiv in *;
  repeat match goal with
         | |- context [Qinv ?c] =>
             let c' := eval vm_compute in (Qinv c) in change (Qinv c) with c'
         | H : context [Qinv ?c] |- _ =>
             let c' := eval vm_compute in (Qinv c) in
             change (Qinv c) with c' in H
         end.

(** What a call does to the outside world and to [start_time], whether it
    returns or raises. *)
Lemma get_carbon_metrics_world network_stats s :
  let s' := snd (get_carbon_metrics network_stats s) in
  cpu_reads (os s') = S (S (S (cpu_reads (os s)))) /\
  clock (os s') = clock (os s) + 1 + 1 + 1 /\
  cpu_feed (os s') = cpu_feed (os s) /\
  start_time (self s') = start_time (self s).
Proof.
  unfold get_carbon_metrics, calculate_total_energy, calculate_cpu_power,
    calculate_network_carbon.
  destruct (dict_get network_stats "total_bytes" (VNum 0)) as [b |];
    cbn; repeat split; reflexivity.
Qed.

(** X1. One call of [get_carbon_metrics] takes three CPU samples, not
    one: it blocks for three sampling intervals (3 seconds on the clock)
    and leaves the construction time alone, whether it returns or
    raises. *)
Theorem get_carbon_metrics_takes_three_samples network_stats s :
  let s' := snd (get_carbon_metrics network_stats s) in
  cpu_reads (os s') = (cpu_reads (os s) + 3)%nat /\
  clock (os s') == clock (os s) + 3 /\
  start_time (self s') = start_time (self s).
Proof.
  destruct (get_carbon_metrics_world network_stats s) as (Hr & Hc & _ & Hs).
  cbv zeta. rewrite Hr, Hc, Hs. repeat split; [lia | ring].
Qed.

(** X2. A non-numeric value under ['total_bytes'] makes the call raise
    [TypeError] and leaves the calculator object as it was: the total
    the savings estimates are based on is not touched. *)
Theorem get_carbon_metrics_type_error_keeps_total network_stats s kind :
  network_stats !! "total_bytes" = Some VOther ->
  exists s',
    get_carbon_metrics network_stats s = (Raise TypeError, s') /\
    self s' = self s /\
    estimate_savings (self s') kind = estimate_savings (self s) kind.
Proof.
  intros H.
  unfold get_carbon_metrics, calculate_total_energy, calculate_cpu_power,
    calculate_network_carbon, dict_get.
  rewrite H. eexists. split; [reflexivity|]. cbn. split; reflexivity.
Qed.

Lemma get_carbon_metrics_type_error_keeps_total_witness :
  exists s',
    get_carbon_metrics (<["total_bytes" := VOther]> ∅) Samples.idle_hour
      = (Raise TypeError, s') /\
    self s' = self Samples.idle_hour.
Proof.
  destruct (get_carbon_metrics_type_error_keeps_total
              (<["total_bytes" := VOther]> ∅) Samples.idle_hour "reduce_cpu")
    as (s' & Hr & Hs & _).
  - reflexivity.
  - exists s'. split; [exact Hr | exact Hs].
Defined.

(** Every kind, known or not, gets an estimate from the table. *)
Lemma estimate_savings_total self kind :
  exists e,
    estimate_savings self kind = Ok e /\
    percent_of_total self e /\
    (potential_reduction_percent e = 30 \/ potential_reduction_percent e = 25
     \/ potential_reduction_percent e = 40)%Z.
Proof.
  unfold estimate_savings, dict_item, percent_of_total.
  rewrite savings_reduce_cpu.
  destruct (decide (kind = "reduce_cpu")) as [-> | H1].
  { rewrite savings_reduce_cpu. eexists. split; [reflexivity|].
    cbn. split; [field | auto]. }
  destruct (decide (kind = "optimize_network")) as [-> | H2].
  { rewrite savings_optimize_network. eexists. split; [reflexivity|].
    cbn. split; [field | auto]. }
  destruct (decide (kind = "power_management")) as [-> | H3].
  { rewrite savings_power_management. eexists. split; [reflexivity|].
    cbn. split; [field | auto]. }
  rewrite (savings_unknown self kind H1 H2 H3).
  eexists. split; [reflexivity|]. cbn. split; [field | auto].
Qed.

(** X3. After a call that returns, [estimate_savings] works from the
    total that call returned: for every kind the estimated savings are
    the returned total carbon times the estimate's percentage over 100. *)
Theorem estimate_savings_follows_last_metrics network_stats b s kind :
  total_bytes_of network_stats b ->
  exists m s' e,
    get_carbon_metrics network_stats s = (Ok m, s') /\
    estimate_savings (self s') kind = Ok e /\
    estimated_savings_grams e ==
      Total.carbon_grams (total m)
      * inject_Z (potential_reduction_percent e) / 100.
Proof.
  intros Hb.
  destruct (get_carbon_metrics_run network_stats b s Hb)
    as (m & s' & Hm & Ht & _).
  destruct (estimate_savings_total (self s') kind) as (e & He & Hp & _).
  exists m, s', e. split; [exact Hm|]. split; [exact He|].
  unfold percent_of_total in Hp. now rewrite <- Ht.
Qed.

Lemma estimate_savings_follows_last_metrics_witness :
  exists m s' e,
    get_carbon_metrics (App.stats_dict Samples.gigabyte_snapshot)
      Samples.idle_hour = (Ok m, s') /\
    estimate_savings (self s') "power_management" = Ok e /\
    estimated_savings_grams e ==
      Total.carbon_grams (total m)
      * inject_Z (potential_reduction_percent e) / 100.
Proof.
  apply (estimate_savings_follows_last_metrics
           (App.stats_dict Samples.gigabyte_snapshot) 1000000000
           Samples.idle_hour "power_management").
  reflexivity.
Defined.

(** X4. Physical sanity: with CPU samples between 0 and 100 percent, a
    clock not before the construction time and a non-negative byte count,
    the power lies between the idle power 50 W and 115 W, and energy and
    carbon figures are non-negative, the total no less than each part. *)
Theorem get_carbon_metrics_bounds network_stats b s :
  total_bytes_of network_stats b ->
  0 <= b ->
  start_time (self s) <= clock (os s) ->
  (forall k, 0 <= cpu_feed (os s) k <= 100) ->
  exists m s',
    get_carbon_metrics network_stats s = (Ok m, s') /\
    0 <= Cpu.usage_percent (cpu m) <= 100 /\
    50 <= Cpu.power_watts (cpu m) <= 115 /\
    0 <= Cpu.energy_kwh (cpu m) /\
    Cpu.energy_kwh (cpu m) <= 115 * Total.runtime_hours (total m) / 1000 /\
    0 <= Cpu.carbon_grams (cpu m) /\
    0 <= Network.carbon_grams (network m) /\
    Cpu.carbon_grams (cpu m) <= Total.carbon_grams (total m) /\
    Network.carbon_grams (network m) <= Total.carbon_grams (total m).
Proof.
  intros Hb Hb0 Hclock Hfeed.
  destruct (get_carbon_metrics_run network_stats b s Hb)
    as (m & s' & Hm & _ & Hu & Hp & He & Hc & _ & Hn & Ht & _ & Hr & _).
  exists m, s'. split; [exact Hm|].
  pose proof (Hfeed (cpu_reads (os s))) as F1.
  pose proof (Hfeed (S (cpu_reads (os s)))) as F2.
  pose proof (Hfeed (S (S (cpu_reads (os s))))) as F3.
  change (1024 ^ 3) with 1073741824 in *.
  rewrite Hu, Hp, Ht, Hr, Hc, Hn, He. clear Hu Hp He Hc Hn Ht Hr.
  unfold runtime, sample1, sample2, sample3, IDLE_POWER, CPU_TDP,
    GRID_CARBON_INTENSITY, NETWORK_POWER_PER_GB.
  set (r := clock (os s) - start_time (self s)).
  assert (R0 : 0 <= r) by (unfold r; lra).
  set (x3 := cpu_feed (os s) (S (S (cpu_reads (os s))))) in *.
  assert (L : 0 <= x3 * r) by (apply Qmult_le_0_compat; lra).
  assert (U : x3 * r <= 100 * r) by (apply Qmult_le_compat_r; lra).
  undiv. repeat split; try lra; tauto.
Qed.

Lemma get_carbon_metrics_bounds_witness :
  exists m s',
    get_carbon_metrics (App.stats_dict Samples.gigabyte_snapshot)
      Samples.bursty_hour = (Ok m, s') /\
    50 <= Cpu.power_watts (cpu m) <= 115.
Proof.
  destruct (get_carbon_metrics_bounds
              (App.stats_dict Samples.gigabyte_snapshot) 1000000000
              Samples.bursty_hour)
    as (m & s' & Hm & _ & Hp & _).
  - reflexivity.
  - discriminate.
  - discriminate.
  - intros k. destruct k as [| [| k]]; split; discriminate.
  - exists m, s'. split; [exact Hm | exact Hp].
Defined.

(** X5. More transferred bytes never lower the estimate: for the same
    calculator and OS readings, a larger ['total_bytes'] gives the same
    CPU figures, and a network and a total carbon at least as large. *)
Theorem get_carbon_metrics_monotone_in_bytes stats1 stats2 b1 b2 s :
  total_bytes_of stats1 b1 ->
  total_bytes_of stats2 b2 ->
  b1 <= b2 ->
  exists m1 s1 m2 s2,
    get_carbon_metrics stats1 s = (Ok m1, s1) /\
    get_carbon_metrics stats2 s = (Ok m2, s2) /\
    cpu m1 = cpu m2 /\
    Network.total_gb (network m1) <= Network.total_gb (network m2) /\
    Network.carbon_grams (network m1) <= Network.carbon_grams (network m2) /\
    Total.carbon_grams (total m1) <= Total.carbon_grams (total m2).
Proof.
  intros H1 H2 Hle.
  destruct (get_carbon_metrics_run stats1 b1 s H1)
    as (m1 & s1 & R1 & _ & U1 & P1 & E1 & C1 & G1 & N1 & T1 & _).
  destruct (get_carbon_metrics_run stats2 b2 s H2)
    as (m2 & s2 & R2 & _ & U2 & P2 & E2 & C2 & G2 & N2 & T2 & _).
  exists m1, s1, m2, s2. split; [exact R1|]. split; [exact R2|].
  assert (Ecpu : cpu m1 = cpu m2).
  { destruct (cpu m1), (cpu m2). cbn in *. congruence. }
  split; [exact Ecpu|].
  rewrite T1, T2, N1, N2, G1, G2, Ecpu.
  unfold NETWORK_POWER_PER_GB, GRID_CARBON_INTENSITY.
  change (1024 ^ 3) with 1073741824. undiv. repeat split; lra.
Qed.

Lemma get_carbon_metrics_monotone_in_bytes_witness :
  exists m1 s1 m2 s2,
    get_carbon_metrics ∅ Samples.idle_hour = (Ok m1, s1) /\
    get_carbon_metrics (App.stats_dict Samples.gigabyte_snapshot)
      Samples.idle_hour = (Ok m2, s2) /\
    Total.carbon_grams (total m1) <= Total.carbon_grams (total m2).
Proof.
  destruct (get_carbon_metrics_monotone_in_bytes
              ∅ (App.stats_dict Samples.gigabyte_snapshot) 0 1000000000
              Samples.idle_hour)
    as (m1 & s1 & m2 & s2 & R1 & R2 & _ & _ & _ & Ht).
  - reflexivity.
  - reflexivity.
  - discriminate.
  - exists m1, s1, m2, s2. split; [exact R1|]. split; [exact R2 | exact Ht].
Defined.

(** X6. [estimate_savings] never raises, whatever the kind, and with a
    non-negative carbon total its estimate lies between 0 and 40 percent
    of that total. *)
Theorem estimate_savings_within_total self kind :
  0 <= total_carbon self ->
  exists e,
    estimate_savings self kind = Ok e /\
    0 <= estimated_savings_grams e /\
    estimated_savings_grams e <= total_carbon self * 0.4 /\
    estimated_savings_grams e <= total_carbon self.
Proof.
  intros H0.
  destruct (estimate_savings_total self kind) as (e & He & Hp & Hk).
  exists e. split; [exact He|].
  unfold percent_of_total in Hp. rewrite Hp.
  destruct Hk as [-> | [-> | ->]]; unfold inject_Z; undiv;
    repeat split; lra.
Qed.

Lemma estimate_savings_within_total_witness :
  exists e,
    estimate_savings {| start_time := 0; total_carbon := 52 |} "unplug" = Ok e /\
    estimated_savings_grams e <= 52.
Proof.
  destruct (estimate_savings_within_total
              {| start_time := 0; total_carbon := 52 |} "unplug")
    as (e & He & _ & _ & Hle).
  - discriminate.
  - exists e. split; [exact He | exact Hle].
Defined.

(** X7. Asked for metrics at the very moment of its construction, a
    calculator reports zero runtime, zero CPU energy and zero CPU carbon
    whatever the CPU load, so the total is the network carbon alone; and
    before any call its savings estimates are 0 grams. *)
Theorem fresh_calculator_reports_no_cpu_carbon network_stats b o kind :
  total_bytes_of network_stats b ->
  exists m s' e,
    get_carbon_metrics network_stats (init o) = (Ok m, s') /\
    Total.runtime_hours (total m) == 0 /\
    Cpu.energy_kwh (cpu m) == 0 /\
    Cpu.carbon_grams (cpu m) == 0 /\
    Total.carbon_grams (total m) == Network.carbon_grams (network m) /\
    estimate_savings (self (init o)) kind = Ok e /\
    estimated_savings_grams e == 0.
Proof.
  intros Hb.
  destruct (get_carbon_metrics_run network_stats b (init o) Hb)
    as (m & s' & Hm & _ & _ & _ & He & Hc & _ & _ & Ht & _ & Hr & _).
  destruct (estimate_savings_total (self (init o)) kind) as (e & Hs & Hp & _).
  exists m, s', e. split; [exact Hm|].
  assert (R0 : runtime (init o) == 0).
  { unfold runtime, init. cbn. field. }
  assert (E0 : Cpu.energy_kwh (cpu m) == 0).
  { rewrite He, R0. field. }
  assert (C0 : Cpu.carbon_grams (cpu m) == 0).
  { rewrite Hc, E0. reflexivity. }
  repeat split.
  - now rewrite Hr.
  - exact E0.
  - exact C0.
  - rewrite Ht, C0. ring.
  - exact Hs.
  - unfold percent_of_total in Hp. rewrite Hp. cbn. field.
Qed.

Lemma fresh_calculator_reports_no_cpu_carbon_witness :
  exists m s',
    get_carbon_metrics (App.stats_dict Samples.gigabyte_snapshot)
      (init (os Samples.bursty_hour)) = (Ok m, s') /\
    Cpu.carbon_grams (cpu m) == 0.
Proof.
  destruct (fresh_calculator_reports_no_cpu_carbon
              (App.stats_dict Samples.gigabyte_snapshot) 1000000000
              (os Samples.bursty_hour) "reduce_cpu")
    as (m & s' & e & Hm & _ & _ & Hc & _).
  - reflexivity.
  - exists m, s'. split; [exact Hm | exact Hc].
Defined.

(** X28. [calculate_network_carbon] charges 30 grams per 2^30 bytes and
    is additive in the bytes; it reads no CPU sample and leaves the
    calculator and the clock alone. *)
Theorem calculate_network_carbon_is_linear b1 b2 s :
  exists g1 g2 g12,
    calculate_network_carbon (VNum b1) s = (Ok g1, s) /\
    calculate_network_carbon (VNum b2) s = (Ok g2, s) /\
    calculate_network_carbon (VNum (b1 + b2)) s = (Ok g12, s) /\
    g1 == 30 * b1 / 2 ^ 30 /\
    g12 == g1 + g2.
Proof.
  unfold calculate_network_carbon, py_div, bind, ret,
    NETWORK_POWER_PER_GB, GRID_CARBON_INTENSITY.
  eexists. eexists. eexists.
  split; [reflexivity|]. split; [reflexivity|]. split; [reflexivity|].
  change (1024 ^ 3) with 1073741824. change (2 ^ 30) with 1073741824.
  split; field.
Qed.

End CalculatorMore.

(** ** More concrete inputs *)

Module MoreSamples.

(** A host where the probe loads, the three kprobes attach and the
    ingestion thread starts. *)
Definition full_kernel : Monitor.Kernel :=
  {| Monitor.bpf_compiles := true;
     Monitor.kprobe_attaches := fun _ => true;
     Monitor.thread_starts := true |}.

Definition udp_send : Monitor.Event.t :=
  {| Monitor.Event.pid := 77; Monitor.Event.saddr := 0;
     Monitor.Event.daddr := 0; Monitor.Event.sport := 0;
     Monitor.Event.dport := 53; Monitor.Event.bytes := 64;
     Monitor.Event.comm := "dig"; Monitor.Event.event_type := 3 |}.

(** An event whose type is none of send, receive, UDP send. *)
Definition stray : Monitor.Event.t :=
  {| Monitor.Event.pid := 9; Monitor.Event.saddr := 0;
     Monitor.Event.daddr := 0; Monitor.Event.sport := 0;
     Monitor.Event.dport := 0; Monitor.Event.bytes := 4096;
     Monitor.Event.comm := "noise"; Monitor.Event.event_type := 0 |}.

Definition traffic : list (list Monitor.Event.t) :=
  [ [Samples.tcp_send; Samples.tcp_recv]; [udp_send; stray; Samples.tcp_send] ].

End MoreSamples.

(** ** More on the activity monitor *)

Module MonitorMore.
Import Monitor MonitorFacts.
Local Open Scope N_scope.

(** *** Starting and stopping *)

(** Every step of [start_monitoring] goes through. *)
Definition backend_ok (k : Kernel) : bool :=
  bpf_compiles k && kprobe_attaches k "tcp_sendmsg"
  && kprobe_attaches k "tcp_recvmsg" && kprobe_attaches k "udp_sendmsg"
  && thread_starts k.

(** The traffic counters and the per-process table of two states agree. *)
Definition same_counters (s s' : BPFNetworkMonitor) : Prop :=
  packet_count s' = packet_count s /\
  bytes_sent s' = bytes_sent s /\
  bytes_received s' = bytes_received s /\
  process_stats s' = process_stats s.

Lemma start_monitoring_run k s :
  exists s',
    start_monitoring k s = (Ok (backend_ok k), s') /\
    same_counters s s' /\
    active_connections s' = active_connections s /\
    (bpf_compiles k = false -> s' = s) /\
    (backend_ok k = true ->
     bpf s' = Some {| kprobes := [("tcp_sendmsg", "trace_tcp_sendmsg");
                                   ("tcp_recvmsg", "trace_tcp_recvmsg");
                                   ("udp_sendmsg", "trace_udp_sendmsg")];
                      tables := [] |} /\
     running s' = true /\ monitor_thread s' = true).
Proof.
  unfold backend_ok, same_counters, start_monitoring, try_except, bind,
    new_BPF, attach_kprobe, start_thread, modify, ret, raise.
  destruct (bpf_compiles k); cbn.
  2: { exists s. repeat split; try reflexivity; discriminate. }
  destruct (kprobe_attaches k "tcp_sendmsg"); cbn.
  2: { eexists. split; [reflexivity|]. cbn. repeat split; discriminate. }
  destruct (kprobe_attaches k "tcp_recvmsg"); cbn.
  2: { eexists. split; [reflexivity|]. cbn. repeat split; discriminate. }
  destruct (kprobe_attaches k "udp_sendmsg"); cbn.
  2: { eexists. split; [reflexivity|]. cbn. repeat split; discriminate. }
  destruct (thread_starts k); cbn.
  2: { eexists. split; [reflexivity|]. cbn. repeat split; discriminate. }
  eexists. split; [reflexivity|]. cbn. repeat split; discriminate.
Qed.

(** X8. [start_monitoring] returns [True] exactly when the probe program
    loads, the three kprobes attach and the thread starts, and [False]
    otherwise, without raising.  Either way it leaves the traffic
    counters and the per-process table alone, and when the probe program
    does not load the monitor is unchanged altogether. *)
Theorem start_monitoring_outcome k s :
  exists r s',
    start_monitoring k s = (Ok r, s') /\
    (r = true <->
     bpf_compiles k = true /\ kprobe_attaches k "tcp_sendmsg" = true /\
     kprobe_attaches k "tcp_recvmsg" = true /\
     kprobe_attaches k "udp_sendmsg" = true /\ thread_starts k = true) /\
    same_counters s s' /\
    (bpf_compiles k = false -> s' = s).
Proof.
  destruct (start_monitoring_run k s) as (s' & Hr & Hc & _ & Hn & _).
  exists (backend_ok k), s'. split; [exact Hr|].
  split; [|split; assumption].
  unfold backend_ok. rewrite !andb_true_iff. tauto.
Qed.

Lemma start_monitoring_outcome_witness :
  exists r s',
    start_monitoring Samples.no_toolchain init = (Ok r, s') /\
    s' = init.
Proof.
  destruct (start_monitoring_outcome Samples.no_toolchain init)
    as (r & s' & Hr & _ & _ & Hs).
  exists r, s'. split; [exact Hr|]. apply Hs. reflexivity.
Defined.

(** X9. After a successful start the monitor holds the probe object with
    the three kprobes attached in order and is running, but no table of
    the probe object was opened.  bcc's probe object is a container of
    its opened tables and tests false while it has none, so both tests
    of [self.bpf] fail: the ingestion thread handles no event, whatever
    the polls would deliver, and [get_stats] keeps returning the OS
    counters. *)
Theorem start_monitoring_leaves_probe_unused k s polls o :
  backend_ok k = true ->
  exists s1 st s2,
    start_monitoring k s = (Ok true, s1) /\
    bpf s1 = Some {| kprobes := [("tcp_sendmsg", "trace_tcp_sendmsg");
                                  ("tcp_recvmsg", "trace_tcp_recvmsg");
                                  ("udp_sendmsg", "trace_udp_sendmsg")];
                     tables := [] |} /\
    running s1 = true /\
    _process_events polls s1 = s1 /\
    get_stats o s1 = (Ok st, s2) /\
    mirrors st o.
Proof.
  intros Hok.
  destruct (start_monitoring_run k s) as (s1 & Hr & _ & _ & _ & Hs).
  destruct (Hs Hok) as (Hb & Hrun & _).
  assert (Hn : not_bpf s1 = true)
    by (unfold not_bpf, bpf_truth; now rewrite Hb).
  destruct (get_stats_run o s1) as (st & Hg & Gp & Gs & Gr & _).
  destruct (refreshed_polling o s1 Hn) as (Ep & Es & Er).
  exists s1, st, (refreshed o s1).
  rewrite Hok in Hr. split; [exact Hr|]. split; [exact Hb|].
  split; [exact Hrun|]. split; [now apply process_events_idle|].
  split; [exact Hg|].
  unfold mirrors. rewrite Gp, Gs, Gr, Ep, Es, Er. auto.
Qed.

Lemma start_monitoring_leaves_probe_unused_witness :
  exists s1 st s2,
    start_monitoring MoreSamples.full_kernel init = (Ok true, s1) /\
    _process_events MoreSamples.traffic s1 = s1 /\
    get_stats Samples.busy_net s1 = (Ok st, s2) /\
    Stats.bytes_sent st = 7000.
Proof.
  destruct (start_monitoring_leaves_probe_unused
              MoreSamples.full_kernel init MoreSamples.traffic Samples.busy_net)
    as (s1 & st & s2 & Hr & _ & _ & Hp & Hg & _ & Hs & _).
  - reflexivity.
  - exists s1, st, s2. split; [exact Hr|]. split; [exact Hp|].
    split; [exact Hg | exact Hs].
Defined.

Lemma open_table_same_counters name s : same_counters s (open_table name s).
Proof.
  unfold open_table, same_counters. destruct (bpf s) as [b |]; [|auto].
  destruct (bool_decide (name ∈ tables b)); cbn; auto.
Qed.

Lemma open_table_running name s : running (open_table name s) = running s.
Proof.
  unfold open_table. destruct (bpf s) as [b |]; [|reflexivity].
  now destruct (bool_decide (name ∈ tables b)).
Qed.

(** A stopped loop handles nothing. *)
Lemma process_events_not_running polls s :
  running s = false -> same_counters s (_process_events polls s).
Proof.
  intros Hr. unfold _process_events.
  destruct (bpf_truth s); [|unfold same_counters; auto].
  assert (H : forall s0, running s0 = false ->
    foldl (fun s batch => if running s then perf_buffer_poll batch s else s)
      s0 polls = s0).
  { induction polls as [| batch polls IH]; intros s0 H0; cbn; [reflexivity|].
    rewrite H0. now apply IH. }
  rewrite H by (now rewrite open_table_running).
  apply open_table_same_counters.
Qed.

(** X10. [stop_monitoring] always returns, and stopping twice is the
    same as stopping once.  It keeps the counters, the per-process table
    and the probe object.  Once stopped, the ingestion loop handles no
    further event, whatever the polls would deliver, and [get_stats]
    returns what it would have returned without the stop. *)
Theorem stop_monitoring_halts_ingestion s polls o :
  exists s1,
    stop_monitoring s = (Ok tt, s1) /\
    stop_monitoring s1 = (Ok tt, s1) /\
    same_counters s s1 /\
    bpf s1 = bpf s /\
    same_counters s (_process_events polls s1) /\
    fst (get_stats o s1) = fst (get_stats o s).
Proof.
  exists (set_running false s).
  split; [reflexivity|]. split; [reflexivity|].
  split; [unfold same_counters; cbn; auto|]. split; [reflexivity|].
  split.
  - destruct (process_events_not_running polls (set_running false s) eq_refl)
      as (Hp & Hs & Hr & Hq).
    unfold same_counters. rewrite Hp, Hs, Hr, Hq. cbn. auto.
  - unfold get_stats, bind, get, modify, ret, not_bpf, bpf_truth. cbn.
    destruct (bpf s) as [[kp [| t ts]] |]; reflexivity.
Qed.

(** X11. Reading the statistics never changes what a later read returns:
    in either mode, a [get_stats] call made in between has no influence
    on the snapshot of the next call. *)
Theorem get_stats_reads_do_not_interfere o1 o2 s :
  fst (get_stats o2 (snd (get_stats o1 s))) = fst (get_stats o2 s).
Proof.
  unfold get_stats, bind, get, modify, ret, not_bpf, bpf_truth.
  destruct (bpf s) as [[kp [| t ts]] |] eqn:Hb; cbn; rewrite ?Hb; cbn;
    reflexivity.
Qed.

(** *** Ingestion over a batch *)

Definition is_send_b (event : Event.t) : bool :=
  (Event.event_type event =? 1) || (Event.event_type event =? 3).

Definition is_receive_b (event : Event.t) : bool :=
  Event.event_type event =? 2.

(** The bytes reported by the send events of a batch. *)
Fixpoint sent_bytes (batch : list Event.t) : N :=
  match batch with
  | [] => 0
  | e :: batch' =>
      (if is_send_b e then Event.bytes e else 0) + sent_bytes batch'
  end.

Fixpoint count_events (f : Event.t -> bool) (batch : list Event.t) : N :=
  match batch with
  | [] => 0
  | e :: batch' => (if f e then 1 else 0) + count_events f batch'
  end.

Lemma handle_event_counters e s :
  packet_count (handle_event e s) = packet_count s + 1 /\
  bytes_sent (handle_event e s) =
    bytes_sent s + (if is_send_b e then Event.bytes e else 0) /\
  bytes_received (handle_event e s) =
    bytes_received s + (if is_receive_b e then 1024 else 0).
Proof.
  unfold handle_event, is_send_b, is_receive_b.
  destruct (Event.event_type e =? 1) eqn:E1; cbn.
  { apply N.eqb_eq in E1. rewrite E1. cbn. repeat split; lia. }
  destruct (Event.event_type e =? 3) eqn:E3; cbn.
  { apply N.eqb_eq in E3. rewrite E3. cbn. repeat split; lia. }
  destruct (Event.event_type e =? 2); cbn; repeat split; lia.
Qed.

(** X12. One poll of the event buffer accounts for its whole batch:
    [packet_count] grows by the number of events, whatever their type,
    [bytes_sent] by the bytes of the send events (types 1 and 3) and
    [bytes_received] by 1024 per receive event (type 2); events of any
    other type only count as packets. *)
Theorem perf_buffer_poll_accounting batch s :
  packet_count (perf_buffer_poll batch s) =
    packet_count s + N.of_nat (length batch) /\
  bytes_sent (perf_buffer_poll batch s) = bytes_sent s + sent_bytes batch /\
  bytes_received (perf_buffer_poll batch s) =
    bytes_received s + 1024 * count_events is_receive_b batch.
Proof.
  unfold perf_buffer_poll. revert s.
  induction batch as [| e batch IH]; intros s.
  - cbn. repeat split; lia.
  - cbn [foldl sent_bytes count_events length].
    destruct (IH (handle_event e s)) as (Hp & Hs & Hr).
    destruct (handle_event_counters e s) as (Ep & Es & Er).
    rewrite Hp, Hs, Hr, Ep, Es, Er.
    destruct (is_receive_b e); repeat split; lia.
Qed.

(** The bytes and the packets held by all the per-process buckets. *)
Definition bucket_bytes (ps : gmap string Bucket.t) : N :=
  map_fold (fun _ b acc => Bucket.bytes b + acc) 0 ps.

Definition bucket_packets (ps : gmap string Bucket.t) : N :=
  map_fold (fun _ b acc => Bucket.packets b + acc) 0 ps.

Lemma bucket_sum_insert (f : Bucket.t -> N) (ps : gmap string Bucket.t)
    comm b' :
  f Bucket.zero = 0 ->
  map_fold (fun _ b acc => f b + acc) 0 (<[comm := b']> ps)
  + f (bucket_of ps comm)
  = map_fold (fun _ b acc => f b + acc) 0 ps + f b'.
Proof.
  intros Hz. unfold bucket_of.
  destruct (ps !! comm) as [old |] eqn:Hl.
  - rewrite <- (insert_delete_eq ps).
    rewrite map_fold_insert_L; [| intros; lia | apply lookup_delete_eq].
    rewrite (map_fold_delete_L _ _ comm old ps); [| intros; lia | exact Hl].
    lia.
  - rewrite map_fold_insert_L; [| intros; lia | exact Hl]. lia.
Qed.

(** Whatever was sent is attributed to some process, and every process
    packet is a counted packet. *)
Definition attributed (s : BPFNetworkMonitor) : Prop :=
  bucket_bytes (process_stats s) = bytes_sent s /\
  bucket_packets (process_stats s) <= packet_count s.

Lemma handle_event_attributed e s : attributed s -> attributed (handle_event e s).
Proof.
  unfold attributed, bucket_bytes, bucket_packets. intros [Hb Hp].
  unfold handle_event.
  destruct (_ || _).
  - cbn [process_stats bytes_sent packet_count].
    set (b' := {| Bucket.packets := _; Bucket.bytes := _ |}).
    pose proof (bucket_sum_insert Bucket.bytes (process_stats s)
                  (Event.comm e) b' eq_refl) as Sb.
    pose proof (bucket_sum_insert Bucket.packets (process_stats s)
                  (Event.comm e) b' eq_refl) as Sp.
    subst b'. cbn [Bucket.bytes Bucket.packets] in Sb, Sp.
    split; lia.
  - destruct (_ =? 2); cbn [process_stats bytes_sent packet_count]; split; lia.
Qed.

Lemma perf_buffer_poll_attributed batch s :
  attributed s -> attributed (perf_buffer_poll batch s).
Proof.
  unfold perf_buffer_poll. revert s.
  induction batch as [| e batch IHb]; intros s Hs; cbn; [exact Hs|].
  apply IHb. now apply handle_event_attributed.
Qed.

Lemma process_events_attributed polls s :
  attributed s -> attributed (_process_events polls s).
Proof.
  unfold _process_events. intros Hs. destruct (bpf_truth s); [|exact Hs].
  assert (Ho : attributed (open_table "events" s)).
  { destruct (open_table_same_counters "events" s) as (Hp & Hb & _ & Hq).
    unfold attributed in *. now rewrite Hp, Hb, Hq. }
  revert Ho. generalize (open_table "events" s). clear s Hs.
  induction polls as [| batch polls IH]; intros s Hs; cbn; [exact Hs|].
  apply IH. destruct (running s); [|exact Hs].
  now apply perf_buffer_poll_attributed.
Qed.

(** X13. Handling events keeps every sent byte attributed to a process:
    if the bytes of the per-process buckets add up to [bytes_sent] and
    their packets to no more than [packet_count], as on a fresh monitor,
    the same holds after any batch of events is handled and after any run
    of the ingestion loop. *)
Theorem ingestion_keeps_sent_bytes_attributed batch polls s :
  attributed s ->
  attributed (perf_buffer_poll batch s) /\
  attributed (_process_events polls s).
Proof.
  intros Hs. split.
  - now apply perf_buffer_poll_attributed.
  - now apply process_events_attributed.
Qed.

Lemma attributed_init : attributed init.
Proof.
  unfold attributed, bucket_bytes, bucket_packets. cbn.
  rewrite !map_fold_empty. split; [reflexivity | lia].
Qed.

Lemma ingestion_keeps_sent_bytes_attributed_witness :
  attributed
    (perf_buffer_poll [Samples.tcp_send; Samples.tcp_recv; MoreSamples.udp_send]
       init).
Proof.
  apply (ingestion_keeps_sent_bytes_attributed
           [Samples.tcp_send; Samples.tcp_recv; MoreSamples.udp_send] [] init).
  exact attributed_init.
Defined.

(** *** The process list *)

Section Busiest.
Local Open Scope nat_scope.

Lemma StronglySorted_app_elem_of {A} (R : A -> A -> Prop) l1 l2 x1 x2 :
  StronglySorted R (l1 ++ l2) -> x1 ∈ l1 -> x2 ∈ l2 -> R x1 x2.
Proof.
  induction l1 as [| y l1 IH]; cbn; intros Hs H1 H2.
  - inversion H1.
  - inversion Hs as [| ? ? Hs' Hy]; subst.
    apply elem_of_cons in H1 as [-> | H1].
    + rewrite Forall_forall in Hy. apply Hy.
      apply elem_of_app. now right.
    + now apply IH.
Qed.

(** Every process that could be read carries a number under
    ['cpu_percent']. *)
Definition cpu_known (procs : list (outcome Pinfo.t)) : Prop :=
  Forall (fun i => is_Some (Pinfo.cpu_percent i)) (readable procs).

Lemma cpu_known_numeric procs :
  cpu_known procs -> Forall numeric (entry <$> readable procs).
Proof.
  unfold cpu_known. intros H. apply Forall_fmap.
  eapply Forall_impl; [exact H|]. intros i Hi. exact Hi.
Qed.

(** X14. When every enumerated process carries a numeric CPU usage, the
    list [get_process_list] returns is made of the busiest readable
    processes: together with the ones left out it is a rearrangement of
    all readable processes, it has 20 elements or all of them if there
    are fewer, and no process left out uses more CPU than one that is
    returned. *)
Theorem get_process_list_keeps_the_busiest procs :
  Forall skippable procs ->
  cpu_known procs ->
  exists l rest,
    get_process_list procs = Ok l /\
    l ++ rest ≡ₚ entry <$> readable procs /\
    length l = Nat.min 20 (length (readable procs)) /\
    (forall p q, p ∈ l -> q ∈ rest -> by_cpu_desc p q).
Proof.
  intros H Hk.
  destruct (sorted_desc_numeric _ (cpu_known_numeric _ Hk))
    as (all & Hall & Hp & Hs).
  exists (take 20 all), (drop 20 all).
  split; [|split; [|split]].
  - unfold get_process_list. rewrite (enumerate_skips _ _ H). cbn [app].
    now rewrite Hall.
  - now rewrite take_drop.
  - rewrite length_take.
    now rewrite (Permutation_length Hp), length_fmap.
  - intros p q Hin Hq. rewrite <- (take_drop 20 all) in Hs.
    exact (StronglySorted_app_elem_of _ _ _ _ _ Hs Hin Hq).
Qed.

Lemma get_process_list_keeps_the_busiest_witness :
  exists l rest,
    get_process_list Samples.process_table = Ok l /\
    l ++ rest ≡ₚ entry <$> readable Samples.process_table /\
    length l = 2.
Proof.
  destruct (get_process_list_keeps_the_busiest Samples.process_table)
    as (l & rest & Hl & Hp & Hn & _).
  - repeat constructor.
  - repeat constructor; eexists; reflexivity.
  - exists l, rest. split; [exact Hl|]. split; [exact Hp | exact Hn].
Defined.

(** The processes of a list whose CPU usage is [c], in order. *)
Definition with_cpu (c : Q) (l : list Proc.t) : list Proc.t :=
  List.filter (fun p => match Proc.cpu p with
                        | Some x => Qeq_bool x c
                        | None => false
                        end) l.

Lemma insert_desc_ties c x l r :
  insert_desc x l = Ok r -> with_cpu c r = with_cpu c (x :: l).
Proof.
  unfold with_cpu. revert r.
  induction l as [| y l IH]; intros r; cbn [insert_desc].
  - now intros [= <-].
  - unfold py_lt.
    destruct (Proc.cpu x) as [cx |] eqn:Hx; [|discriminate].
    destruct (Proc.cpu y) as [cy |] eqn:Hy; [|discriminate].
    destruct (Qle_bool cy cx) eqn:Hc; cbn [negb].
    + now intros [= <-].
    + destruct (insert_desc x l) as [r0 |] eqn:Hr; [|discriminate].
      intros [= <-]. specialize (IH r0 eq_refl).
      cbn [List.filter] in *. rewrite Hx, Hy in *. rewrite IH.
      destruct (Qeq_bool cx c) eqn:Ex; [|reflexivity].
      destruct (Qeq_bool cy c) eqn:Ey; [|reflexivity].
      exfalso. apply Qeq_bool_iff in Ex, Ey.
      assert (Hle : (cy <= cx)%Q) by (rewrite Ex, Ey; apply Qle_refl).
      apply Qle_bool_iff in Hle. congruence.
Qed.

Lemma sorted_desc_ties c l r :
  sorted_desc l = Ok r -> with_cpu c r = with_cpu c l.
Proof.
  unfold sorted_desc. revert r.
  induction l as [| x l IH]; intros r; cbn [foldr].
  - now intros [= <-].
  - destruct (foldr _ _ l) as [r0 |]; [|discriminate].
    intros Hr. rewrite (insert_desc_ties c x r0 r Hr).
    unfold with_cpu in *. cbn [List.filter]. now rewrite (IH r0 eq_refl).
Qed.

(** X15. Ties keep the enumeration order: when every enumerated process
    carries a numeric CPU usage, among the processes returned those with
    one and the same CPU usage appear in the order in which they were
    enumerated, the earliest first. *)
Theorem get_process_list_ties_in_enumeration_order procs c :
  Forall skippable procs ->
  cpu_known procs ->
  exists l,
    get_process_list procs = Ok l /\
    with_cpu c l `prefix_of` with_cpu c (entry <$> readable procs).
Proof.
  intros H Hk.
  destruct (sorted_desc_numeric _ (cpu_known_numeric _ Hk))
    as (all & Hall & _ & _).
  exists (take 20 all).
  split.
  - unfold get_process_list. rewrite (enumerate_skips _ _ H). cbn [app].
    now rewrite Hall.
  - rewrite <- (sorted_desc_ties c _ _ Hall).
    exists (with_cpu c (drop 20 all)).
    unfold with_cpu. rewrite <- List.filter_app. now rewrite take_drop.
Qed.

Lemma get_process_list_ties_in_enumeration_order_witness :
  exists l,
    get_process_list Samples.process_table = Ok l /\
    with_cpu 12 l `prefix_of`
      with_cpu 12 (entry <$> readable Samples.process_table).
Proof.
  apply (get_process_list_ties_in_enumeration_order Samples.process_table 12).
  - repeat constructor.
  - repeat constructor; eexists; reflexivity.
Defined.

(** X29. A process handed over with [None] under ['cpu_percent'] is not
    skipped: as soon as two or more processes are enumerated and one of
    them has no CPU figure, the sort raises [TypeError] and
    [get_process_list] returns no list. *)
Theorem get_process_list_raises_on_missing_cpu procs :
  Forall skippable procs ->
  Exists (fun i => Pinfo.cpu_percent i = None) (readable procs) ->
  2 <= length (readable procs) ->
  get_process_list procs = Raise TypeError.
Proof.
  intros H Hex Hlen. unfold get_process_list.
  rewrite (enumerate_skips _ _ H). cbn [app].
  destruct (sorted_desc_cases (entry <$> readable procs))
    as [[[Hnum | Hone] _] | (_ & _ & ->)]; [| |reflexivity].
  - exfalso. rewrite Forall_fmap in Hnum.
    rewrite Exists_exists in Hex. destruct Hex as (i & Hi & Hnone).
    rewrite Forall_forall in Hnum. destruct (Hnum i Hi) as [c Hc].
    cbn in Hc. congruence.
  - rewrite length_fmap in Hone. lia.
Qed.

Lemma get_process_list_raises_on_missing_cpu_witness :
  get_process_list Samples.guarded_table = Raise TypeError.
Proof.
  apply (get_process_list_raises_on_missing_cpu Samples.guarded_table).
  - repeat constructor.
  - apply Exists_cons_tl, Exists_cons_hd. reflexivity.
  - cbn. lia.
Defined.

(** X16. An exception other than a vanished or inaccessible process is
    not swallowed: the first read that raises one ends the enumeration
    and the exception reaches the caller. *)
Theorem get_process_list_raises_other_errors procs1 procs2 e :
  Forall skippable procs1 ->
  vanished_or_denied e = false ->
  get_process_list (procs1 ++ Raise e :: procs2) = Raise e.
Proof.
  intros H He. unfold get_process_list.
  assert (G : forall acc, enumerate (procs1 ++ Raise e :: procs2) acc = Raise e).
  { induction H as [| r procs Hr _ IH]; intros acc; cbn.
    - now rewrite He.
    - destruct r as [pinfo | e']; cbn in *; [apply IH|].
      rewrite Hr. apply IH. }
  now rewrite G.
Qed.

Lemma get_process_list_raises_other_errors_witness :
  get_process_list (Samples.process_table ++ Raise OtherError :: [])
  = Raise OtherError.
Proof.
  apply (get_process_list_raises_other_errors Samples.process_table []).
  - repeat constructor.
  - reflexivity.
Defined.

End Busiest.

End MonitorMore.

(** ** More on the history buffer and the collection cycle *)

Module HistoryMore.
Import App.
Local Open Scope nat_scope.

Lemma trim_snoc_any {A} (l : list A) (x : A) :
  length (trim (l ++ [x])) = Nat.min (S (length l)) 100 /\
  last (trim (l ++ [x])) = Some x.
Proof.
  unfold trim, slice_last. rewrite length_app. cbn [length].
  destruct (Nat.ltb_spec 100 (length l + 1)) as [Hlt | Hge].
  - rewrite drop_app_le by lia. rewrite length_app, length_drop. cbn [length].
    split; [lia | apply last_snoc].
  - rewrite length_app. cbn [length]. split; [lia | apply last_snoc].
Qed.

Lemma store_shape p h :
  let h' := store p h in
  (length (timestamps h') = Nat.min (S (length (timestamps h))) 100 /\
   length (cpu_usage h') = Nat.min (S (length (cpu_usage h))) 100 /\
   length (network_bytes h') = Nat.min (S (length (network_bytes h))) 100 /\
   length (carbon_emissions h') = Nat.min (S (length (carbon_emissions h))) 100 /\
   length (energy_consumption h')
     = Nat.min (S (length (energy_consumption h))) 100) /\
  (last (timestamps h') = Some (timestamp p) /\
   last (cpu_usage h') = Some (cpuUsage p) /\
   last (network_bytes h') = Some (networkMB p) /\
   last (carbon_emissions h') = Some (carbonGrams p) /\
   last (energy_consumption h') = Some (energyWh p)).
Proof.
  unfold store.
  cbn [timestamps cpu_usage network_bytes carbon_emissions energy_consumption].
  repeat split; apply trim_snoc_any.
Qed.

(** X17. Storing a point into any history, whatever it held, leaves
    every series with one entry more, capped at 100, and with the newly
    stored value as its last entry. *)
Theorem store_caps_and_appends p h :
  let h' := store p h in
  (length (timestamps h') = Nat.min (S (length (timestamps h))) 100 /\
   length (cpu_usage h') = Nat.min (S (length (cpu_usage h))) 100 /\
   length (network_bytes h') = Nat.min (S (length (network_bytes h))) 100 /\
   length (carbon_emissions h') = Nat.min (S (length (carbon_emissions h))) 100 /\
   length (energy_consumption h')
     = Nat.min (S (length (energy_consumption h))) 100) /\
  (last (timestamps h') = Some (timestamp p) /\
   last (cpu_usage h') = Some (cpuUsage p) /\
   last (network_bytes h') = Some (networkMB p) /\
   last (carbon_emissions h') = Some (carbonGrams p) /\
   last (energy_consumption h') = Some (energyWh p)).
Proof. exact (store_shape p h). Qed.

(** What one cycle measures, spelled out. *)
Lemma measure_run t sys :
  exists st m s',
    Monitor.get_stats (tick_net t) (monitor sys)
      = (Ok st, MonitorFacts.refreshed (tick_net t) (monitor sys)) /\
    Calculator.get_carbon_metrics (stats_dict st)
      {| Calculator.os := tick_os t; Calculator.self := calculator sys |}
      = (Ok m, s') /\
    Monitor.Stats.total_bytes st =
      (Monitor.bytes_sent (MonitorFacts.refreshed (tick_net t) (monitor sys))
       + Monitor.bytes_received
           (MonitorFacts.refreshed (tick_net t) (monitor sys)))%N /\
    Calculator.total_carbon (Calculator.self s')
      = Calculator.Total.carbon_grams (Calculator.total m) /\
    measure t sys =
      (MonitorFacts.refreshed (tick_net t) (monitor sys), Calculator.self s',
       Some {| timestamp := tick_time t;
               cpuUsage := Calculator.Cpu.usage_percent (Calculator.cpu m);
               networkMB :=
                 (NQ (Monitor.Stats.total_bytes st) / (1024 * 1024))%Q;
               carbonGrams :=
                 Calculator.Total.carbon_grams (Calculator.total m);
               energyWh :=
                 (Calculator.Total.total_energy_kwh (Calculator.total m)
                  * 1000)%Q |}).
Proof.
  destruct (MonitorFacts.get_stats_run (tick_net t) (monitor sys))
    as (st & Hg & _ & _ & _ & Ht & _).
  destruct (CalculatorFacts.get_carbon_metrics_run (stats_dict st)
              (NQ (Monitor.Stats.total_bytes st))
              {| Calculator.os := tick_os t;
                 Calculator.self := calculator sys |})
    as (m & s' & Hm & Hc & _).
  { apply CalculatorFacts.total_bytes_of_present. unfold stats_dict.
    do 3 (rewrite lookup_insert_ne by discriminate).
    apply lookup_insert_eq. }
  exists st, m, s'. split; [exact Hg|]. split; [exact Hm|].
  split; [exact Ht|]. split; [exact Hc|].
  unfold measure. now rewrite Hg, Hm.
Qed.

(** X18. After every collection cycle the newest entries of the history
    are in step with the components that produced them: the newest
    timestamp is that of the cycle, the newest carbon value is the total
    the calculator keeps for its savings estimates, and the newest
    network value is the monitor's [bytes_sent + bytes_received] in
    units of 1024 * 1024 bytes. *)
Theorem collect_once_newest_entries t sys :
  let sys' := collect_once t sys in
  last (timestamps (historical_data sys')) = Some (tick_time t) /\
  last (carbon_emissions (historical_data sys'))
    = Some (Calculator.total_carbon (calculator sys')) /\
  last (network_bytes (historical_data sys'))
    = Some (NQ (Monitor.bytes_sent (monitor sys')
                + Monitor.bytes_received (monitor sys')) / (1024 * 1024))%Q.
Proof.
  destruct (measure_run t sys) as (st & m & s' & _ & _ & Ht & Hc & Hm).
  unfold collect_once. rewrite Hm.
  cbn [historical_data monitor calculator].
  destruct (store_shape
              {| timestamp := tick_time t;
                 cpuUsage := Calculator.Cpu.usage_percent (Calculator.cpu m);
                 networkMB :=
                   (NQ (Monitor.Stats.total_bytes st) / (1024 * 1024))%Q;
                 carbonGrams :=
                   Calculator.Total.carbon_grams (Calculator.total m);
                 energyWh :=
                   (Calculator.Total.total_energy_kwh (Calculator.total m)
                    * 1000)%Q |} (historical_data sys))
    as (_ & L1 & _ & L3 & L4 & _).
  cbn [timestamp networkMB carbonGrams] in L1, L3, L4.
  rewrite L1, L3, L4, Hc, Ht. repeat split; reflexivity.
Qed.

End HistoryMore.

(** ** [optimizer.py] *)

Module Optimizer.
Local Open Scope monad_scope.

(** The exceptions the optimizer tells apart, each with the text that
    [str(e)] gives. *)
Inductive exn_class : Set :=
  | PsutilNoSuchProcess
  | PsutilAccessDenied
  | TimeoutExpired
  | FileNotFoundError
  | PyTypeError
  | OtherException.

Record exception : Type := { class : exn_class; str : string }.

Inductive result (A : Type) : Type :=
  | Done (a : A)
  | Raised (e : exception).
Arguments Done {A} a.
Arguments Raised {A} e.

(** [proc.info] for [process_iter(['pid', 'name', 'cpu_percent'])];
    an attribute psutil is denied access to is [None]. *)
Record ProcInfo : Type := {
  pid : N;
  name : option string;
  cpu_percent : option Q
}.

(** An element of [actions]; the keys ['status'] and ['processes'] are
    not in every dict. *)
Record Action : Type := {
  action : string;
  details : string;
  status : option string;
  processes : option (list ProcInfo)
}.

(** The dict a strategy returns. *)
Record Outcome : Type := {
  success : bool;
  actions : option (list Action);
  estimated_reduction : option string;
  error : option string
}.

(** [subprocess.CompletedProcess]: what the optimizer could look at. *)
Record CompletedProcess : Type := { returncode : Z; stdout : string }.

(** An entry of [psutil.net_connections()]. *)
Record sconn : Type := { conn_status : string }.

(** What the host answers to the optimizer.  [governor_probe] is
    [result.stdout.strip()] of the [cat] command, when it runs. *)
Record Host : Type := {
  process_iter : list (result ProcInfo);
  cpupower : result CompletedProcess;
  governor_probe : result string;
  laptop_mode_exists : bool;
  sysctl : result CompletedProcess;
  net_connections : result (list sconn);
  net_io_counters : result unit
}.

(** The locals and attributes a strategy works on. *)
Record Frame : Type := {
  optimization_log : list Action;
  local_actions : list Action
}.

Definition O (A : Type) : Type := Frame -> result A * Frame.

Definition oret {A} (a : A) : O A := fun f => (Done a, f).

Definition obind {A B} (m : O A) (k : A -> O B) : O B :=
  fun f => match m f with
           | (Done a, f') => k a f'
           | (Raised e, f') => (Raised e, f')
           end.

Definition otry {A} (m : O A) (handled : exn_class -> bool)
    (h : exception -> O A) : O A :=
  fun f => match m f with
           | (Done a, f') => (Done a, f')
           | (Raised e, f') =>
               if handled (class e) then h e f' else (Raised e, f')
           end.

Definition lift {A} (r : result A) : O A := fun f => (r, f).

Notation "x <~ m ;; k" := (obind m (fun x => k))
  (at level 100, m at next level, right associativity) : monad_scope.
Notation "m ;;~ k" := (obind m (fun _ => k))
  (at level 100, right associativity) : monad_scope.

(** [actions.append(a)] *)
Definition append_action (a : Action) : O unit := fun f =>
  (Done tt, {| optimization_log := optimization_log f;
               local_actions := local_actions f ++ [a] |}).

(** [self.optimization_log.extend(actions)] *)
Definition extend_log : O unit := fun f =>
  (Done tt, {| optimization_log := optimization_log f ++ local_actions f;
               local_actions := local_actions f |}).

Definition get_actions : O (list Action) := fun f => (Done (local_actions f), f).

Definition vanished_or_denied (c : exn_class) : bool :=
  match c with
  | PsutilNoSuchProcess | PsutilAccessDenied => true
  | _ => false
  end.

Definition timeout_or_missing (c : exn_class) : bool :=
  match c with
  | TimeoutExpired | FileNotFoundError => true
  | _ => false
  end.

Definition any_Exception (c : exn_class) : bool := true.

(** [x > 50] for a value [x] of ['cpu_percent']: [None] is not ordered
    with a number. *)
Definition above_50 (x : option Q) : result bool :=
  match x with
  | Some c => Done (if Qlt_le_dec 50 c then true else false)
  | None =>
      Raised {| class := PyTypeError;
                str := "'>' not supported between instances of 'NoneType' and 'int'" |}
  end.

(** The [for] loop of [reduce_cpu_usage]: an exception of the body other
    than the two handled ones leaves the loop. *)
Fixpoint scan (procs : list (result ProcInfo)) (high_cpu_procs : list ProcInfo)
  : result (list ProcInfo) :=
  match procs with
  | [] => Done high_cpu_procs
  | Done info :: rest =>
      match above_50 (cpu_percent info) with
      | Done true => scan rest (high_cpu_procs ++ [info])
      | Done false => scan rest high_cpu_procs
      | Raised e =>
          if vanished_or_denied (class e) then scan rest high_cpu_procs
          else Raised e
      end
  | Raised e :: rest =>
      if vanished_or_denied (class e) then scan rest high_cpu_procs
      else Raised e
  end.

(** The [except Exception as e] clause shared by the strategies. *)
Definition failed (e : exception) : O Outcome :=
  acts <~ get_actions;;
  oret {| success := false; actions := Some acts;
          estimated_reduction := None; error := Some (str e) |}.

Definition succeeded (reduction : string) : O Outcome :=
  extend_log;;~
  acts <~ get_actions;;
  oret {| success := true; actions := Some acts;
          estimated_reduction := Some reduction; error := None |}.

Definition reduce_cpu_usage (h : Host) : O Outcome :=
  otry
    (high_cpu_procs <~ lift (scan (process_iter h) []);;
     (match high_cpu_procs with
      | [] => oret tt
      | _ :: _ =>
          append_action
            {| action := "Identified high CPU processes";
               details := "Found " +:+ pretty (length high_cpu_procs)
                          +:+ " processes using >50% CPU";
               status := None;
               processes := Some high_cpu_procs |}
      end);;~
     otry
       (lift (cpupower h);;~
        append_action
          {| action := "CPU frequency scaling";
             details := "Set CPU governor to powersave mode";
             status := Some "success"; processes := None |})
       timeout_or_missing
       (fun _ =>
        append_action
          {| action := "CPU frequency scaling";
             details :=
               "cpupower not available (install with: sudo apt install linux-tools-common)";
             status := Some "info"; processes := None |});;~
     append_action
       {| action := "Process management recommendation";
          details := "Consider closing unnecessary applications and browser tabs";
          status := Some "recommendation"; processes := None |};;~
     succeeded "30%")
    any_Exception failed.

Definition established (c : sconn) : bool :=
  String.eqb (conn_status c) "ESTABLISHED".

Definition optimize_network (h : Host) : O Outcome :=
  otry
    (connections <~ lift (net_connections h);;
     let active_connections := length (List.filter established connections) in
     append_action
       {| action := "Network analysis";
          details := "Found " +:+ pretty active_connections
                     +:+ " active connections";
          status := Some "info"; processes := None |};;~
     lift (net_io_counters h);;~
     append_action
       {| action := "Network optimization suggestions";
          details :=
            "Enable browser compression, use content caching, limit background sync";
          status := Some "recommendation"; processes := None |};;~
     append_action
       {| action := "Traffic compression";
          details := "Consider using VPN with compression or CDN caching";
          status := Some "recommendation"; processes := None |};;~
     succeeded "25%")
    any_Exception failed.

Definition enable_power_management (h : Host) : O Outcome :=
  otry
    (otry
       (current_governor <~ lift (governor_probe h);;
        append_action
          {| action := "Power profile check";
             details := "Current CPU governor: " +:+ current_governor;
             status := Some "info"; processes := None |})
       timeout_or_missing
       (fun _ => oret tt);;~
     append_action
       {| action := "Power management tools";
          details :=
            "Install TLP for automatic power management: sudo apt install tlp";
          status := Some "recommendation"; processes := None |};;~
     (if laptop_mode_exists h then
        otry
          (lift (sysctl h);;~
           append_action
             {| action := "Laptop mode";
                details := "Enabled laptop mode for better power efficiency";
                status := Some "success"; processes := None |})
          timeout_or_missing
          (fun _ => oret tt)
      else oret tt);;~
     append_action
       {| action := "USB power saving";
          details := "Enable USB autosuspend for idle devices";
          status := Some "recommendation"; processes := None |};;~
     append_action
       {| action := "Display optimization";
          details :=
            "Reduce screen brightness to 50-70% for optimal power savings";
          status := Some "recommendation"; processes := None |};;~
     succeeded "40%")
    any_Exception failed.

(** The dict [optimizations] of bound methods. *)
Definition optimizations (h : Host) : gmap string (O Outcome) :=
  <["reduce_cpu" := reduce_cpu_usage h]>
  (<["optimize_network" := optimize_network h]>
  (<["power_management" := enable_power_management h]> ∅)).

(** [apply_optimization] on an optimizer whose log is [log]: each
    strategy starts with an empty [actions] list. *)
Definition apply_optimization (h : Host) (optimization_type : string)
    (log : list Action) : result Outcome * list Action :=
  match optimizations h !! optimization_type with
  | Some strategy =>
      let '(r, f) := strategy {| optimization_log := log; local_actions := [] |} in
      (r, optimization_log f)
  | None =>
      (Done {| success := false; actions := None; estimated_reduction := None;
               error := Some "Unknown optimization type" |}, log)
  end.

Definition get_log (log : list Action) : list Action := log.

End Optimizer.

(** ** Hosts for the optimizer *)

Module HostSamples.
Import Optimizer.

(** A laptop without [cpupower], with one busy process among a vanished
    and an idle one, and a [sysctl] that runs but fails. *)
Definition laptop : Host :=
  {| process_iter :=
       [ Done {| pid := 1; name := Some "init"; cpu_percent := Some 0.5%Q |};
         Raised {| class := PsutilNoSuchProcess; str := "process no longer exists" |};
         Done {| pid := 812; name := Some "ffmpeg"; cpu_percent := Some 97%Q |} ];
     cpupower := Raised {| class := FileNotFoundError; str := "No such file" |};
     governor_probe := Done "schedutil";
     laptop_mode_exists := true;
     sysctl := Done {| returncode := 1; stdout := "sysctl: permission denied" |};
     net_connections :=
       Done [ {| conn_status := "ESTABLISHED" |}; {| conn_status := "LISTEN" |} ];
     net_io_counters := Done tt |}.

(** A server where [cpupower] runs and exits with an error status. *)
Definition server : Host :=
  {| process_iter :=
       [ Done {| pid := 1; name := Some "init"; cpu_percent := Some 0.5%Q |} ];
     cpupower := Done {| returncode := 1; stdout := "Error setting new values" |};
     governor_probe := Raised {| class := TimeoutExpired; str := "timed out" |};
     laptop_mode_exists := false;
     sysctl := Raised {| class := FileNotFoundError; str := "No such file" |};
     net_connections := Done [];
     net_io_counters := Done tt |}.

(** A host where one process is of another user: psutil hands it over
    with [None] under ['cpu_percent']. *)
Definition shared : Host :=
  {| process_iter :=
       [ Done {| pid := 812; name := Some "ffmpeg"; cpu_percent := Some 97%Q |};
         Done {| pid := 2; name := Some "kthreadd"; cpu_percent := None |};
         Done {| pid := 1; name := Some "init"; cpu_percent := Some 0.5%Q |} ];
     cpupower := Done {| returncode := 0; stdout := "Setting cpu: 0" |};
     governor_probe := Done "schedutil";
     laptop_mode_exists := false;
     sysctl := Raised {| class := FileNotFoundError; str := "No such file" |};
     net_connections := Done [];
     net_io_counters := Done tt |}.

End HostSamples.

(** ** The optimizer *)

Module OptimizerFacts.
Import Optimizer.
Local Open Scope nat_scope.

(** A strategy either succeeds, and then logs exactly the actions it
    returns together with an estimated reduction, or fails, and then
    logs nothing and reports an error. *)
Definition well_logged (log : list Action) (out : Outcome)
    (log' : list Action) : Prop :=
  (success out = true /\
   (exists acts, actions out = Some acts /\ log' = log ++ acts /\
                 2 <= length acts <= 5) /\
   is_Some (estimated_reduction out) /\ error out = None)
  \/
  (success out = false /\ log' = log /\
   is_Some (error out) /\ estimated_reduction out = None).

Ltac strategy_cases :=
  eexists; eexists; (split; [reflexivity|]); cbn;
  first
    [ split;
      [ left; repeat split; eauto;
        eexists; (split; [reflexivity|]); cbn; split; [reflexivity | lia]
      | reflexivity ]
    | split; [ right; repeat split; eauto | discriminate ] ].

Lemma reduce_cpu_usage_logged h log :
  exists out f',
    reduce_cpu_usage h {| optimization_log := log; local_actions := [] |}
      = (Done out, f') /\
    well_logged log out (optimization_log f') /\
    (success out = true -> estimated_reduction out = Some "30%"%string).
Proof.
  unfold reduce_cpu_usage, otry, obind, lift, succeeded, failed, extend_log,
    get_actions, append_action, oret, well_logged.
  destruct (scan (process_iter h) []) as [[| p high] | e]; cbn;
    [ destruct (cpupower h) as [c | [[] m]]; cbn
    | destruct (cpupower h) as [c | [[] m]]; cbn
    | ]; strategy_cases.
Qed.

Lemma optimize_network_logged h log :
  exists out f',
    optimize_network h {| optimization_log := log; local_actions := [] |}
      = (Done out, f') /\
    well_logged log out (optimization_log f') /\
    (success out = true -> estimated_reduction out = Some "25%"%string).
Proof.
  unfold optimize_network, otry, obind, lift, succeeded, failed, extend_log,
    get_actions, append_action, oret, well_logged.
  destruct (net_connections h) as [conns | e]; cbn;
    [ destruct (net_io_counters h) as [[] | e]; cbn | ]; strategy_cases.
Qed.

Lemma enable_power_management_logged h log :
  exists out f',
    enable_power_management h {| optimization_log := log; local_actions := [] |}
      = (Done out, f') /\
    well_logged log out (optimization_log f') /\
    (success out = true -> estimated_reduction out = Some "40%"%string).
Proof.
  unfold enable_power_management, otry, obind, lift, succeeded, failed,
    extend_log, get_actions, append_action, oret, well_logged.
  destruct (governor_probe h) as [g | [[] m]]; cbn;
    destruct (laptop_mode_exists h); cbn;
    try (destruct (sysctl h) as [c | [[] m']]; cbn);
    strategy_cases.
Qed.

Lemma optimizations_unknown h kind :
  kind <> "reduce_cpu"%string -> kind <> "optimize_network"%string ->
  kind <> "power_management"%string ->
  optimizations h !! kind = None.
Proof.
  intros H1 H2 H3. unfold optimizations.
  do 3 (rewrite lookup_insert_ne by congruence).
  apply lookup_empty.
Qed.

Lemma optimizations_known h kind :
  (kind = "reduce_cpu"%string /\
   optimizations h !! kind = Some (reduce_cpu_usage h)) \/
  (kind = "optimize_network"%string /\
   optimizations h !! kind = Some (optimize_network h)) \/
  (kind = "power_management"%string /\
   optimizations h !! kind = Some (enable_power_management h)) \/
  (kind <> "reduce_cpu"%string /\ kind <> "optimize_network"%string /\
   kind <> "power_management"%string /\ optimizations h !! kind = None).
Proof.
  destruct (decide (kind = "reduce_cpu"%string)) as [-> | H1].
  { left. split; [reflexivity|]. apply lookup_insert_eq. }
  destruct (decide (kind = "optimize_network"%string)) as [-> | H2].
  { right; left. split; [reflexivity|]. unfold optimizations.
    rewrite lookup_insert_ne by discriminate. apply lookup_insert_eq. }
  destruct (decide (kind = "power_management"%string)) as [-> | H3].
  { right; right; left. split; [reflexivity|]. unfold optimizations.
    do 2 (rewrite lookup_insert_ne by discriminate). apply lookup_insert_eq. }
  right; right; right. repeat split; try assumption.
  now apply optimizations_unknown.
Qed.

(** One of the three estimates, or none. *)
Definition reduction_text (o : option string) : Prop :=
  o = None \/ o = Some "30%"%string \/ o = Some "25%"%string
  \/ o = Some "40%"%string.

Lemma well_logged_reduction log out log' (r : string) :
  well_logged log out log' ->
  (success out = true -> estimated_reduction out = Some r) ->
  estimated_reduction out = None \/ estimated_reduction out = Some r.
Proof.
  intros [(Hs & _) | (_ & _ & _ & Hn)] Hr; [right; auto | left; exact Hn].
Qed.

Lemma apply_optimization_run h kind log :
  exists out log',
    apply_optimization h kind log = (Done out, log') /\
    well_logged log out log' /\
    reduction_text (estimated_reduction out).
Proof.
  unfold apply_optimization, reduction_text. fold (O Outcome).
  destruct (optimizations_known h kind)
    as [[_ ->] | [[_ ->] | [[_ ->] | (_ & _ & _ & ->)]]].
  - destruct (reduce_cpu_usage_logged h log) as (out & f' & -> & Hw & Hr).
    exists out, (optimization_log f'). split; [reflexivity|]. split; [exact Hw|].
    destruct (well_logged_reduction _ _ _ _ Hw Hr); tauto.
  - destruct (optimize_network_logged h log) as (out & f' & -> & Hw & Hr).
    exists out, (optimization_log f'). split; [reflexivity|]. split; [exact Hw|].
    destruct (well_logged_reduction _ _ _ _ Hw Hr); tauto.
  - destruct (enable_power_management_logged h log) as (out & f' & -> & Hw & Hr).
    exists out, (optimization_log f'). split; [reflexivity|]. split; [exact Hw|].
    destruct (well_logged_reduction _ _ _ _ Hw Hr); tauto.
  - eexists. eexists. split; [reflexivity|]. split; [|left; reflexivity].
    right. cbn. repeat split; eauto.
Qed.

(** X19. [apply_optimization] never raises, whatever the host does and
    whatever type is asked for.  When it reports success, the
    optimization log has grown by exactly the actions it returns (between
    2 and 5 of them) and the result carries an estimated reduction; when
    it reports failure, by an unknown type or by an unexpected exception
    in a strategy, the log is unchanged even if some actions were already
    gathered, and the result carries an error text and no estimate. *)
Theorem apply_optimization_logs_only_successes h kind log :
  exists out log',
    apply_optimization h kind log = (Done out, log') /\
    well_logged log out log'.
Proof.
  destruct (apply_optimization_run h kind log) as (out & log' & Hr & Hw & _).
  eauto.
Qed.

Lemma apply_optimization_unknown_type_eq h kind log :
  kind <> "reduce_cpu"%string -> kind <> "optimize_network"%string ->
  kind <> "power_management"%string ->
  apply_optimization h kind log =
    (Done {| success := false; actions := None; estimated_reduction := None;
             error := Some "Unknown optimization type"%string |}, log).
Proof.
  intros H1 H2 H3. unfold apply_optimization. fold (O Outcome).
  now rewrite (optimizations_unknown h kind H1 H2 H3).
Qed.

(** X20. An unknown optimization type is refused without touching the
    host or the log: the result is a failure with the error text
    'Unknown optimization type', and it has no ['actions'] key. *)
Theorem apply_optimization_unknown_type h kind log :
  kind <> "reduce_cpu"%string -> kind <> "optimize_network"%string ->
  kind <> "power_management"%string ->
  apply_optimization h kind log =
    (Done {| success := false; actions := None; estimated_reduction := None;
             error := Some "Unknown optimization type"%string |}, log).
Proof.
  intros H1 H2 H3. unfold apply_optimization. fold (O Outcome).
  now rewrite (optimizations_unknown h kind H1 H2 H3).
Qed.

Lemma apply_optimization_unknown_type_witness :
  apply_optimization HostSamples.laptop "plant_trees" [] =
    (Done {| success := false; actions := None; estimated_reduction := None;
             error := Some "Unknown optimization type"%string |}, []).
Proof.
  apply (apply_optimization_unknown_type HostSamples.laptop "plant_trees" []);
    discriminate.
Defined.

(** X21. The estimate a successful optimization announces is the one the
    calculator uses for the same kind: its ['estimated_reduction'] is the
    calculator's [potential_reduction_percent] followed by a percent
    sign. *)
Theorem estimated_reduction_matches_savings_table h kind log self out log' :
  apply_optimization h kind log = (Done out, log') ->
  success out = true ->
  exists e,
    Calculator.estimate_savings self kind = Ok e /\
    estimated_reduction out =
      Some (pretty (Calculator.potential_reduction_percent e) +:+ "%")%string.
Proof.
  unfold apply_optimization. fold (O Outcome).
  intros Hrun Hok.
  unfold Calculator.estimate_savings, Calculator.dict_item.
  rewrite CalculatorFacts.savings_reduce_cpu.
  destruct (optimizations_known h kind)
    as [[-> Hk] | [[-> Hk] | [[-> Hk] | (_ & _ & _ & Hk)]]];
    rewrite Hk in Hrun.
  - destruct (reduce_cpu_usage_logged h log) as (out0 & f' & Hr & _ & Hred).
    rewrite Hr in Hrun. injection Hrun as -> _.
    rewrite CalculatorFacts.savings_reduce_cpu.
    eexists. split; [reflexivity|]. now rewrite (Hred Hok).
  - destruct (optimize_network_logged h log) as (out0 & f' & Hr & _ & Hred).
    rewrite Hr in Hrun. injection Hrun as -> _.
    rewrite CalculatorFacts.savings_optimize_network.
    eexists. split; [reflexivity|]. now rewrite (Hred Hok).
  - destruct (enable_power_management_logged h log)
      as (out0 & f' & Hr & _ & Hred).
    rewrite Hr in Hrun. injection Hrun as -> _.
    rewrite CalculatorFacts.savings_power_management.
    eexists. split; [reflexivity|]. now rewrite (Hred Hok).
  - injection Hrun as <- _. discriminate Hok.
Qed.

Lemma estimated_reduction_matches_savings_table_witness :
  exists out log' e,
    apply_optimization HostSamples.laptop "power_management" [] = (Done out, log') /\
    Calculator.estimate_savings
      {| Calculator.start_time := 0; Calculator.total_carbon := 52 |}
      "power_management" = Ok e /\
    estimated_reduction out =
      Some (pretty (Calculator.potential_reduction_percent e) +:+ "%")%string.
Proof.
  eexists. eexists.
  destruct (estimated_reduction_matches_savings_table HostSamples.laptop
              "power_management" []
              {| Calculator.start_time := 0; Calculator.total_carbon := 52 |}
              _ _ eq_refl eq_refl)
    as (e & He & Hr).
  exists e. split; [reflexivity|]. split; [exact He | exact Hr].
Defined.

(** *** [reduce_cpu_usage] *)

Definition readable (procs : list (result ProcInfo)) : list ProcInfo :=
  omap (fun r => match r with Done i => Some i | Raised _ => None end) procs.

(** A read that does not stop the scan: it raised one of the two
    handled exceptions, or it carries a number under ['cpu_percent']. *)
Definition scannable (r : result ProcInfo) : Prop :=
  match r with
  | Done i => is_Some (cpu_percent i)
  | Raised e => vanished_or_denied (class e) = true
  end.

(** The processes that use more than 50 percent CPU. *)
Definition busy (l : list ProcInfo) : list ProcInfo :=
  List.filter (fun i => match cpu_percent i with
                        | Some c => if Qlt_le_dec 50 c then true else false
                        | None => false
                        end) l.

(** The command ran, or could not be run for a reason the strategy
    expects. *)
Definition tolerated {A} (r : result A) : Prop :=
  match r with
  | Done _ => True
  | Raised e => timeout_or_missing (class e) = true
  end.

Lemma scan_skips procs acc :
  Forall scannable procs ->
  scan procs acc = Done (acc ++ busy (readable procs)).
Proof.
  intros H. revert acc.
  induction H as [| r procs Hr _ IH]; intros acc; cbn.
  - now rewrite app_nil_r.
  - destruct r as [info | e]; cbn in *.
    + destruct Hr as [c Hc]. rewrite Hc. cbn.
      destruct (Qlt_le_dec 50 c); rewrite IH.
      * now rewrite <- app_assoc.
      * reflexivity.
    + rewrite Hr. apply IH.
Qed.

(** X22. When every enumerated process either raised one of the two
    handled exceptions or carries a numeric CPU usage, [reduce_cpu_usage]
    lists under ['processes'] exactly the readable processes that use
    more than 50 percent CPU, in enumeration order; when there is none,
    no action carries a ['processes'] key. *)
Theorem reduce_cpu_usage_lists_busy_processes h log :
  Forall scannable (process_iter h) ->
  tolerated (cpupower h) ->
  exists acts,
    apply_optimization h "reduce_cpu" log =
      (Done {| success := true; actions := Some acts;
               estimated_reduction := Some "30%"%string; error := None |},
       log ++ acts) /\
    omap processes acts =
      match busy (readable (process_iter h)) with
      | [] => []
      | _ :: _ => [busy (readable (process_iter h))]
      end /\
    (forall a, a ∈ acts -> is_Some (processes a) ->
       details a = ("Found "
                    +:+ pretty (length (busy (readable (process_iter h))))
                    +:+ " processes using >50% CPU")%string).
Proof.
  intros Hs Ht.
  unfold apply_optimization. fold (O Outcome).
  assert (Hk : optimizations h !! "reduce_cpu"%string = Some (reduce_cpu_usage h))
    by apply lookup_insert_eq.
  rewrite Hk.
  unfold reduce_cpu_usage, otry, obind, lift, succeeded, failed, extend_log,
    get_actions, append_action, oret.
  rewrite (scan_skips _ [] Hs). cbn [app].
  destruct (busy (readable (process_iter h))) as [| p high];
    destruct (cpupower h) as [c | [[] m]]; cbn in Ht; try discriminate Ht;
    cbn; eexists; (split; [reflexivity|]); (split; [reflexivity|]);
    intros a Ha [x Hx]; set_unfold; destruct_or!; subst; cbn in *;
    try discriminate; reflexivity.
Qed.

Lemma reduce_cpu_usage_lists_busy_processes_witness :
  exists acts,
    apply_optimization HostSamples.laptop "reduce_cpu" [] =
      (Done {| success := true; actions := Some acts;
               estimated_reduction := Some "30%"%string; error := None |},
       [] ++ acts) /\
    omap processes acts =
      [[ {| pid := 812; name := Some "ffmpeg"%string;
            cpu_percent := Some 97%Q |} ]].
Proof.
  destruct (reduce_cpu_usage_lists_busy_processes HostSamples.laptop [])
    as (acts & Hr & Hp & _).
  - repeat constructor; eexists; reflexivity.
  - reflexivity.
  - exists acts. split; [exact Hr | exact Hp].
Defined.

(** X23. Whenever the scan of the processes went through and the
    [cpupower] command could be run, whatever its exit status,
    [reduce_cpu_usage] succeeds and reports the change of CPU governor
    with status 'success'. *)
Theorem reduce_cpu_usage_ignores_exit_status h log c high :
  scan (process_iter h) [] = Done high ->
  cpupower h = Done c ->
  exists out log' acts,
    apply_optimization h "reduce_cpu" log = (Done out, log') /\
    success out = true /\
    actions out = Some acts /\
    {| action := "CPU frequency scaling";
       details := "Set CPU governor to powersave mode";
       status := Some "success"%string; processes := None |} ∈ acts.
Proof.
  intros Hs Hc.
  unfold apply_optimization. fold (O Outcome).
  assert (Hk : optimizations h !! "reduce_cpu"%string = Some (reduce_cpu_usage h))
    by apply lookup_insert_eq.
  rewrite Hk.
  unfold reduce_cpu_usage, otry, obind, lift, succeeded, failed, extend_log,
    get_actions, append_action, oret.
  rewrite Hs, Hc.
  destruct high as [| p high]; cbn;
    eexists; eexists; eexists; (split; [reflexivity|]); cbn;
    (split; [reflexivity|]); (split; [reflexivity|]); set_solver.
Qed.

Lemma reduce_cpu_usage_ignores_exit_status_witness :
  exists out log' acts,
    apply_optimization HostSamples.server "reduce_cpu" [] = (Done out, log') /\
    success out = true /\
    actions out = Some acts /\
    {| action := "CPU frequency scaling";
       details := "Set CPU governor to powersave mode";
       status := Some "success"%string; processes := None |} ∈ acts.
Proof.
  apply (reduce_cpu_usage_ignores_exit_status HostSamples.server []
           {| returncode := 1; stdout := "Error setting new values" |} []).
  - reflexivity.
  - reflexivity.
Defined.

Lemma scan_stops_at_missing_cpu procs1 info procs2 acc :
  Forall scannable procs1 ->
  cpu_percent info = None ->
  scan (procs1 ++ Done info :: procs2) acc =
    Raised {| class := PyTypeError;
              str := "'>' not supported between instances of 'NoneType' and 'int'" |}.
Proof.
  intros H Hn. revert acc.
  induction H as [| r procs Hr _ IH]; intros acc; cbn.
  - now rewrite Hn.
  - destruct r as [i | e]; cbn in *.
    + destruct Hr as [c Hc]. rewrite Hc. cbn.
      destruct (Qlt_le_dec 50 c); apply IH.
    + rewrite Hr. apply IH.
Qed.

(** X30. A process handed over with [None] under ['cpu_percent'] is not
    skipped by [reduce_cpu_usage]: the comparison with 50 raises, the
    strategy reports failure with the text of the [TypeError] and no
    action, and nothing is logged; the [cpupower] command is not run. *)
Theorem reduce_cpu_usage_fails_on_missing_cpu h log procs1 info procs2 :
  process_iter h = procs1 ++ Done info :: procs2 ->
  Forall scannable procs1 ->
  cpu_percent info = None ->
  apply_optimization h "reduce_cpu" log =
    (Done {| success := false; actions := Some [];
             estimated_reduction := None;
             error :=
               Some "'>' not supported between instances of 'NoneType' and 'int'"%string |},
     log).
Proof.
  intros Hp Hs Hn.
  unfold apply_optimization. fold (O Outcome).
  assert (Hk : optimizations h !! "reduce_cpu"%string = Some (reduce_cpu_usage h))
    by apply lookup_insert_eq.
  rewrite Hk.
  unfold reduce_cpu_usage, otry, obind, lift, failed, get_actions, oret.
  rewrite Hp, (scan_stops_at_missing_cpu _ _ _ _ Hs Hn). reflexivity.
Qed.

Lemma reduce_cpu_usage_fails_on_missing_cpu_witness :
  exists out,
    apply_optimization HostSamples.shared "reduce_cpu" [] = (Done out, []) /\
    success out = false.
Proof.
  eexists. split.
  - apply (reduce_cpu_usage_fails_on_missing_cpu HostSamples.shared []
             [Done {| pid := 812; name := Some "ffmpeg"%string;
                      cpu_percent := Some 97%Q |}]
             {| pid := 2; name := Some "kthreadd"%string; cpu_percent := None |}
             [Done {| pid := 1; name := Some "init"%string;
                      cpu_percent := Some 0.5%Q |}]).
    + reflexivity.
    + repeat constructor. eexists; reflexivity.
    + reflexivity.
  - reflexivity.
Defined.

End OptimizerFacts.

(** ** The [/api/optimize] route of [app.py] *)

Module Routes.
Import Stdlib.Strings.Ascii.
Local Open Scope Q_scope.

(** The module-level dict [optimization_data]; [None] is Python's. *)
Record OptimizationData : Type := {
  before_carbon_g : option Q;
  after_carbon_g : option Q;
  reduction_g : option Q;
  reduction_percent : option Q;
  optimization_applied : bool;
  optimization_type : option string
}.

Definition optimization_data0 : OptimizationData :=
  {| before_carbon_g := None; after_carbon_g := None; reduction_g := None;
     reduction_percent := None; optimization_applied := false;
     optimization_type := None |}.

(** The process: monitor, calculator, the optimizer's log and the
    optimization record. *)
Record Server : Type := {
  monitor : Monitor.BPFNetworkMonitor;
  calculator : Calculator.CarbonCalculator;
  optimizer_log : list Optimizer.Action;
  optimization_data : OptimizationData
}.

(** A POST request whose JSON body is an object of strings, and what the
    host shows while it is served. *)
Record Request : Type := {
  json : gmap string string;
  req_net : Monitor.NetOS;
  req_os : Calculator.OS;
  req_host : Optimizer.Host
}.

(** The JSON document of a 200 answer. *)
Module Body.
Record t : Type := {
  success : bool;
  optimization_type : string;
  actions : list Optimizer.Action;
  estimated_reduction : string;
  before_carbon_g : Q;
  after_carbon_g : Q;
  reduction_g : Q;
  reduction_percent : Q;
  error : option string
}.
End Body.

(** The exception behind a 500 answer. *)
Inductive failure : Type :=
  | CoreError (e : exn)
  | OptimizerError (e : Optimizer.exception).

Inductive Response : Type :=
  | Answer200 (body : Body.t)
  | Answer500 (e : failure).

(** [s.replace(c, '')] for a one-character [c] *)
Fixpoint remove_char (c : Ascii.ascii) (s : string) : string :=
  match s with
  | EmptyString => EmptyString
  | String a s' =>
      if Ascii.eqb a c then remove_char c s' else String a (remove_char c s')
  end.

Definition get_default {A} (o : option A) (dflt : A) : A :=
  match o with
  | Some a => a
  | None => dflt
  end.

Section Optimize.

(** Python's [float] on a string; [None] stands for the [ValueError]. *)
Variable py_float : string -> option Q.

Definition optimize (rq : Request) (srv : Server) : Response * Server :=
  let optimization_type := get_default (json rq !! "type") "reduce_cpu" in
  match Monitor.get_stats (req_net rq) (monitor srv) with
  | (Raise e, mon') =>
      (Answer500 (CoreError e),
       {| monitor := mon'; calculator := calculator srv;
          optimizer_log := optimizer_log srv;
          optimization_data := optimization_data srv |})
  | (Ok net_stats_before, mon') =>
      match Calculator.get_carbon_metrics (App.stats_dict net_stats_before)
              {| Calculator.os := req_os rq;
                 Calculator.self := calculator srv |} with
      | (Raise e, st') =>
          (Answer500 (CoreError e),
           {| monitor := mon'; calculator := Calculator.self st';
              optimizer_log := optimizer_log srv;
              optimization_data := optimization_data srv |})
      | (Ok carbon_metrics_before, st') =>
          let before_carbon :=
            Calculator.Total.carbon_grams
              (Calculator.total carbon_metrics_before) in
          match Optimizer.apply_optimization (req_host rq) optimization_type
                  (optimizer_log srv) with
          | (Optimizer.Raised e, log') =>
              (Answer500 (OptimizerError e),
               {| monitor := mon'; calculator := Calculator.self st';
                  optimizer_log := log';
                  optimization_data := optimization_data srv |})
          | (Optimizer.Done result, log') =>
              let reduction_percent_str :=
                remove_char "%"%char
                  (get_default (Optimizer.estimated_reduction result) "30%") in
              let reduction_percent :=
                match py_float reduction_percent_str with
                | Some x => x / 100
                | None => 0.30
                end in
              let after_carbon := before_carbon * (1 - reduction_percent) in
              let reduction_carbon := before_carbon - after_carbon in
              (Answer200
                 {| Body.success := Optimizer.success result;
                    Body.optimization_type := optimization_type;
                    Body.actions := get_default (Optimizer.actions result) [];
                    Body.estimated_reduction :=
                      get_default (Optimizer.estimated_reduction result) "N/A";
                    Body.before_carbon_g := before_carbon;
                    Body.after_carbon_g := after_carbon;
                    Body.reduction_g := reduction_carbon;
                    Body.reduction_percent := reduction_percent * 100;
                    Body.error := Optimizer.error result |},
               {| monitor := mon'; calculator := Calculator.self st';
                  optimizer_log := log';
                  optimization_data :=
                    {| before_carbon_g := Some before_carbon;
                       after_carbon_g := Some after_carbon;
                       reduction_g := Some reduction_carbon;
                       reduction_percent := Some (reduction_percent * 100);
                       optimization_applied := true;
                       optimization_type := Some optimization_type |} |})
          end
      end
  end.

End Optimize.

(** [float] on the strings of decimal digits; enough for the strings the
    route can meet. *)
Fixpoint digits_value (s : string) (acc : N) : option N :=
  match s with
  | EmptyString => Some acc
  | String a s' =>
      let n := Ascii.N_of_ascii a in
      if ((48 <=? n) && (n <=? 57))%N then digits_value s' (10 * acc + (n - 48))%N
      else None
  end.

Definition float_of_digits (s : string) : option Q :=
  match s with
  | EmptyString => None
  | _ => (fun n => inject_Z (Z.of_N n)) <$> digits_value s 0%N
  end.

End Routes.

(** ** The optimize route *)

Module RoutesFacts.
Import Stdlib.Strings.Ascii.
Import Routes.
Local Open Scope Q_scope.

(** The reduction the route works with, from the optimizer's result. *)
Definition reduction_of (py_float : string -> option Q)
    (out : Optimizer.Outcome) : Q :=
  match py_float (remove_char "%"%char
                    (get_default (Optimizer.estimated_reduction out) "30%")) with
  | Some x => x / 100
  | None => 0.30
  end.

(** One request, spelled out: the route always answers 200. *)
Lemma optimize_run py_float rq srv :
  exists m s' out log',
    Calculator.total_carbon (Calculator.self s')
      = Calculator.Total.carbon_grams (Calculator.total m) /\
    Optimizer.apply_optimization (req_host rq)
      (get_default (json rq !! "type") "reduce_cpu") (optimizer_log srv)
      = (Optimizer.Done out, log') /\
    OptimizerFacts.well_logged (optimizer_log srv) out log' /\
    OptimizerFacts.reduction_text (Optimizer.estimated_reduction out) /\
    let before := Calculator.Total.carbon_grams (Calculator.total m) in
    let r := reduction_of py_float out in
    optimize py_float rq srv =
      (Answer200
         {| Body.success := Optimizer.success out;
            Body.optimization_type :=
              get_default (json rq !! "type") "reduce_cpu";
            Body.actions := get_default (Optimizer.actions out) [];
            Body.estimated_reduction :=
              get_default (Optimizer.estimated_reduction out) "N/A";
            Body.before_carbon_g := before;
            Body.after_carbon_g := before * (1 - r);
            Body.reduction_g := before - before * (1 - r);
            Body.reduction_percent := r * 100;
            Body.error := Optimizer.error out |},
       {| monitor := MonitorFacts.refreshed (req_net rq) (monitor srv);
          calculator := Calculator.self s';
          optimizer_log := log';
          optimization_data :=
            {| before_carbon_g := Some before;
               after_carbon_g := Some (before * (1 - r));
               reduction_g := Some (before - before * (1 - r));
               reduction_percent := Some (r * 100);
               optimization_applied := true;
               optimization_type :=
                 Some (get_default (json rq !! "type") "reduce_cpu") |} |}).
Proof.
  destruct (MonitorFacts.get_stats_run (req_net rq) (monitor srv))
    as (st & Hg & _).
  destruct (CalculatorFacts.get_carbon_metrics_run (App.stats_dict st)
              (App.NQ (Monitor.Stats.total_bytes st))
              {| Calculator.os := req_os rq;
                 Calculator.self := calculator srv |})
    as (m & s' & Hm & Hc & _).
  { apply CalculatorFacts.total_bytes_of_present. unfold App.stats_dict.
    do 3 (rewrite lookup_insert_ne by discriminate).
    apply lookup_insert_eq. }
  destruct (OptimizerFacts.apply_optimization_run (req_host rq)
              (get_default (json rq !! "type") "reduce_cpu")
              (optimizer_log srv))
    as (out & log' & Ha & Hw & Ht).
  exists m, s', out, log'.
  split; [exact Hc|]. split; [exact Ha|]. split; [exact Hw|].
  split; [exact Ht|].
  unfold optimize, reduction_of. now rewrite Hg, Hm, Ha.
Qed.

(** X24. The route always answers 200 and overwrites the optimization
    record with what it answers, marked as applied: the recorded
    before-value is the total the calculator now keeps, before = after +
    reduction, and the optimizer's log is extended exactly when the
    answer reports success. *)
Theorem optimize_records_what_it_answers py_float rq srv :
  exists body srv',
    optimize py_float rq srv = (Answer200 body, srv') /\
    optimization_data srv' =
      {| before_carbon_g := Some (Body.before_carbon_g body);
         after_carbon_g := Some (Body.after_carbon_g body);
         reduction_g := Some (Body.reduction_g body);
         reduction_percent := Some (Body.reduction_percent body);
         optimization_applied := true;
         optimization_type := Some (Body.optimization_type body) |} /\
    Body.before_carbon_g body = Calculator.total_carbon (calculator srv') /\
    Body.after_carbon_g body + Body.reduction_g body
      == Body.before_carbon_g body /\
    optimizer_log srv' =
      optimizer_log srv
      ++ (if Body.success body then Body.actions body else []).
Proof.
  destruct (optimize_run py_float rq srv)
    as (m & s' & out & log' & Hc & _ & Hw & _ & Hrun).
  cbv zeta in Hrun. rewrite Hrun.
  eexists. eexists. split; [reflexivity|]. cbn.
  split; [reflexivity|]. split; [now rewrite Hc|]. split; [ring|].
  destruct Hw as [(Hs & (acts & Ha & Hl & _) & _) | (Hs & Hl & _)];
    rewrite Hs, Hl.
  - now rewrite Ha.
  - now rewrite app_nil_r.
Qed.

(** X25. With [float] reading '30', '25' and '40' as those numbers, the
    reduction the route applies is 30, 25 or 40 percent of the value
    before: after = before * (100 - percent) / 100 and reduction = before
    * percent / 100. *)
Theorem optimize_applies_a_table_percentage py_float rq srv :
  py_float "30"%string = Some 30 ->
  py_float "25"%string = Some 25 ->
  py_float "40"%string = Some 40 ->
  exists body srv',
    optimize py_float rq srv = (Answer200 body, srv') /\
    (Body.reduction_percent body == 30 \/ Body.reduction_percent body == 25
     \/ Body.reduction_percent body == 40) /\
    Body.after_carbon_g body * 100
      == Body.before_carbon_g body * (100 - Body.reduction_percent body) /\
    Body.reduction_g body * 100
      == Body.before_carbon_g body * Body.reduction_percent body.
Proof.
  intros F30 F25 F40.
  destruct (optimize_run py_float rq srv)
    as (m & s' & out & log' & _ & _ & _ & Ht & Hrun).
  cbv zeta in Hrun. rewrite Hrun.
  eexists. eexists. split; [reflexivity|]. cbn.
  unfold reduction_of.
  destruct Ht as [-> | [-> | [-> | ->]]]; cbn;
    rewrite ?F30, ?F25, ?F40; (split; [| split; field]).
  - left. reflexivity.
  - left. reflexivity.
  - right; left. reflexivity.
  - right; right. reflexivity.
Qed.

Lemma optimize_applies_a_table_percentage_witness :
  exists body srv',
    optimize float_of_digits
      {| json := {[ "type"%string := "optimize_network"%string ]};
         req_net := Samples.busy_net; req_os := Calculator.os Samples.idle_hour;
         req_host := HostSamples.laptop |}
      {| monitor := Monitor.init;
         calculator := Calculator.self Samples.idle_hour;
         optimizer_log := []; optimization_data := optimization_data0 |}
      = (Answer200 body, srv') /\
    (Body.reduction_percent body == 30 \/ Body.reduction_percent body == 25
     \/ Body.reduction_percent body == 40).
Proof.
  destruct (optimize_applies_a_table_percentage float_of_digits
              {| json := {[ "type"%string := "optimize_network"%string ]};
                 req_net := Samples.busy_net;
                 req_os := Calculator.os Samples.idle_hour;
                 req_host := HostSamples.laptop |}
              {| monitor := Monitor.init;
                 calculator := Calculator.self Samples.idle_hour;
                 optimizer_log := []; optimization_data := optimization_data0 |})
    as (body & srv' & Hr & Hp & _).
  - reflexivity.
  - reflexivity.
  - reflexivity.
  - exists body, srv'. split; [exact Hr | exact Hp].
Defined.

(** X26. A request for an unknown optimization type is answered with
    [success] false and the error text 'Unknown optimization type', and
    the optimizer's log is untouched; yet the optimization record is
    overwritten as applied, with the default reduction of 30 percent of
    the value before. *)
Theorem optimize_records_unknown_type_as_applied py_float rq srv kind :
  py_float "30"%string = Some 30 ->
  json rq !! "type"%string = Some kind ->
  kind <> "reduce_cpu"%string -> kind <> "optimize_network"%string ->
  kind <> "power_management"%string ->
  exists body srv',
    optimize py_float rq srv = (Answer200 body, srv') /\
    Body.success body = false /\
    Body.error body = Some "Unknown optimization type"%string /\
    Body.estimated_reduction body = "N/A"%string /\
    optimizer_log srv' = optimizer_log srv /\
    optimization_applied (optimization_data srv') = true /\
    optimization_type (optimization_data srv') = Some kind /\
    Body.reduction_percent body == 30 /\
    Body.reduction_g body == Body.before_carbon_g body * 0.3.
Proof.
  intros F30 Hk H1 H2 H3.
  destruct (optimize_run py_float rq srv)
    as (m & s' & out & log' & _ & Ha & _ & _ & Hrun).
  cbv zeta in Hrun. rewrite Hrun. clear Hrun.
  rewrite Hk in *. cbn [get_default] in *.
  rewrite (OptimizerFacts.apply_optimization_unknown_type_eq _ _ _ H1 H2 H3) in Ha.
  injection Ha as <- <-.
  eexists. eexists. split; [reflexivity|]. cbn.
  unfold reduction_of. cbn. rewrite F30.
  repeat split; try reflexivity. field.
Qed.

Lemma optimize_records_unknown_type_as_applied_witness :
  exists body srv',
    optimize float_of_digits
      {| json := {[ "type"%string := "plant_trees"%string ]};
         req_net := Samples.busy_net; req_os := Calculator.os Samples.idle_hour;
         req_host := HostSamples.laptop |}
      {| monitor := Monitor.init;
         calculator := Calculator.self Samples.idle_hour;
         optimizer_log := []; optimization_data := optimization_data0 |}
      = (Answer200 body, srv') /\
    Body.success body = false /\
    optimization_applied (optimization_data srv') = true.
Proof.
  destruct (optimize_records_unknown_type_as_applied float_of_digits
              {| json := {[ "type"%string := "plant_trees"%string ]};
                 req_net := Samples.busy_net;
                 req_os := Calculator.os Samples.idle_hour;
                 req_host := HostSamples.laptop |}
              {| monitor := Monitor.init;
                 calculator := Calculator.self Samples.idle_hour;
                 optimizer_log := []; optimization_data := optimization_data0 |}
              "plant_trees")
    as (body & srv' & Hr & Hs & _ & _ & _ & Ha & _).
  - reflexivity.
  - reflexivity.
  - discriminate.
  - discriminate.
  - discriminate.
  - exists body, srv'. split; [exact Hr|]. split; [exact Hs | exact Ha].
Defined.

End RoutesFacts.
